(** * search_service/api/filter.py: the search filter resources

    A shallow embedding of [BaseFilterAPI], [SearchTableFilterAPI] and
    [SearchDashboardFilterAPI], with the part of [flask_restful.reqparse]
    their request parser goes through, and the properties of the [post]
    handlers. *)

From Stdlib Require Import ZArith String Ascii List Bool Lia.
From stdpp Require Import base option list strings gmap.

Open Scope string_scope.
Open Scope Z_scope.

Set Warnings "-register-all".

(** ** Python values, exceptions and outcomes *)

Module Py.

(** An exception object: the names of its class and of the classes it
    derives from (its method resolution order) and [str(e)].  An HTTP
    exception of werkzeug carries its status code, its description and,
    when raised through [flask_restful.abort(code, message=errors)], the
    entries of [data['message']]. *)
Inductive exception : Type :=
| Error (mro : list string) (text : string)
| HTTPException (code : Z) (description : string)
                (message : list (string * string)).

(** The values the handler sees: what the JSON decoder produces, and an
    exception object where the parser stores one. *)
Inductive object : Type :=
| None_
| Bool (b : bool)
| Int (n : Z)
| Str (s : string)
| List_ (l : list object)
| Dict (d : list (object * object))
| Exc (e : exception).

Inductive outcome (A : Type) : Type :=
| Returns (a : A)
| Raises (e : exception).
Arguments Returns {A} a.
Arguments Raises {A} e.

Definition RuntimeError (text : string) : exception :=
  Error ["RuntimeError"; "Exception"; "BaseException"] text.
Definition TypeError (text : string) : exception :=
  Error ["TypeError"; "Exception"; "BaseException"] text.
Definition ValueError (text : string) : exception :=
  Error ["ValueError"; "Exception"; "BaseException"] text.
Definition KeyError (text : string) : exception :=
  Error ["KeyError"; "LookupError"; "Exception"; "BaseException"] text.

(** [isinstance(e, cls)] for a class given by name. *)
Definition isinstance (e : exception) (cls : string) : bool :=
  match e with
  | Error mro _ => existsb (String.eqb cls) mro
  | HTTPException _ _ _ =>
      existsb (String.eqb cls) ["HTTPException"; "Exception"; "BaseException"]
  end.

Definition str_of_exception (e : exception) : string :=
  match e with
  | Error _ text => text
  | HTTPException _ description _ => description
  end.

(** [type(o).__name__], as it appears in the interpreter's messages. *)
Definition type_name (o : object) : string :=
  match o with
  | None_ => "NoneType"
  | Bool _ => "bool"
  | Int _ => "int"
  | Str _ => "str"
  | List_ _ => "list"
  | Dict _ => "dict"
  | Exc (Error mro _) => hd "BaseException" mro
  | Exc (HTTPException _ _ _) => "HTTPException"
  end.

(** [sub in s] on two [str]: [sub] occurs in [s] as a substring. *)
Fixpoint str_contains (sub s : string) : bool :=
  String.prefix sub s ||
  match s with
  | EmptyString => false
  | String _ s' => str_contains sub s'
  end.

Definition is_str (sub : string) (o : object) : bool :=
  match o with
  | Str s => String.eqb sub s
  | _ => false
  end.

(** [sub in container] for a [str] on the left: a substring test on a
    [str], an element test on a list, a key test on a dict, and a
    [TypeError] on anything that is not a container. *)
Definition contains (sub : string) (container : object) : outcome bool :=
  match container with
  | Str s => Returns (str_contains sub s)
  | List_ l => Returns (existsb (is_str sub) l)
  | Dict d => Returns (existsb (fun kv => is_str sub (fst kv)) d)
  | o => Raises (TypeError ("argument of type '" +:+ type_name o +:+ "' is not iterable"))
  end.

(** What is left of the built-in constructors [str], [int] and [dict]
    once the cases on the shape of the value are spelled out: the
    [repr] of a value that is not a [str], the reading of an integer
    literal, and [dict] on a sequence of pairs. *)
Record Builtins : Type := {
  repr : object -> string;
  int_of_literal : string -> outcome Z;
  dict_of_sequence : list object -> outcome (list (object * object))
}.

(** [str(o)], [int(o)] and [dict(o)] on the values a request carries. *)
Definition str (py : Builtins) (o : object) : outcome object :=
  match o with
  | Str s => Returns (Str s)
  | Exc e => Returns (Str (str_of_exception e))
  | _ => Returns (Str (repr py o))
  end.

Definition int (py : Builtins) (o : object) : outcome object :=
  match o with
  | Int n => Returns (Int n)
  | Bool b => Returns (Int (Z.b2z b))
  | Str s =>
      match int_of_literal py s with
      | Returns n => Returns (Int n)
      | Raises e => Raises e
      end
  | _ => Raises (TypeError ("int() argument must be a string, a bytes-like object or a number, not '"
                            +:+ type_name o +:+ "'"))
  end.

Definition dict (py : Builtins) (o : object) : outcome object :=
  match o with
  | Dict d => Returns (Dict d)
  | Str EmptyString => Returns (Dict [])
  | Str (String _ _) =>
      Raises (ValueError "dictionary update sequence element #0 has length 1; 2 is required")
  | List_ l =>
      match dict_of_sequence py l with
      | Returns d => Returns (Dict d)
      | Raises e => Raises e
      end
  | _ => Raises (TypeError ("'" +:+ type_name o +:+ "' object is not iterable"))
  end.

End Py.

(** ** flask_restful.reqparse

    The request parser is a dependency of the service, not part of it.
    The definitions follow [Argument.parse] and [RequestParser.parse_args]
    of flask_restful on the argument source the parser reads: the items
    of the request's JSON body and values, a name with each of its values
    (a list in the body contributes one item per element).  An argument
    has the keyword arguments the service sets; the others are at the
    library's defaults ([action='store'], [operators=('=',)],
    [location=('json', 'values')], [nullable=True], [store_missing=True],
    [ignore=False], [trim=False], no [choices], no [help], no [dest]). *)

Module reqparse.
Import Py.

Definition source : Type := list (string * object).

Record Argument : Type := {
  name : string;
  default : object;
  required : bool;
  type : object -> outcome object
}.

Record RequestParser : Type := {
  args : list Argument;
  bundle_errors : bool
}.

Definition RequestParser_init (bundle_errors : bool) : RequestParser :=
  {| args := []; bundle_errors := bundle_errors |}.

Definition add_argument (parser : RequestParser) (arg : Argument) : RequestParser :=
  {| args := args parser ++ [arg]; bundle_errors := bundle_errors parser |}.

(** [name in source] and [source.getlist(name)]. *)
Definition has_key (key : string) (src : source) : bool :=
  existsb (fun item => String.eqb key (fst item)) src.

Definition getlist (key : string) (src : source) : list object :=
  map snd (List.filter (fun item => String.eqb key (fst item)) src).

(** The keys of [dict(source)], each once, in the order they first occur. *)
Fixpoint keys (src : source) : list string :=
  match src with
  | [] => []
  | (key, _) :: rest =>
      key :: List.filter (fun k => negb (String.eqb key k)) (keys rest)
  end.

(** [unparsed_arguments.pop(name)] when [name] is in it. *)
Definition pop (key : string) (unparsed : list string) : list string :=
  List.filter (fun k => negb (String.eqb key k)) unparsed.

(** [errors.update({name: text})]. *)
Fixpoint update (errors : list (string * string)) (key text : string)
  : list (string * string) :=
  match errors with
  | [] => [(key, text)]
  | (k, t) :: rest =>
      if String.eqb k key then (k, text) :: rest
      else (k, t) :: update rest key text
  end.

Definition bad_request_description : string :=
  "The browser (or proxy) sent a request that this server could not understand.".

(** [flask_restful.abort(code, message=errors)]. *)
Definition abort (code : Z) (errors : list (string * string)) : exception :=
  HTTPException code bad_request_description errors.

(** [exceptions.BadRequest(description)]. *)
Definition BadRequest (description : string) : exception :=
  HTTPException 400 description [].

(** [Argument.convert]: [None] is not cast; on any other value the
    three- and two-argument calls of [type] fail with a [TypeError] for
    the constructors the service passes, which leaves [type(value)]. *)
Definition convert (arg : Argument) (value : object) : outcome object :=
  match value with
  | None_ => Returns None_
  | _ => type arg value
  end.

(** What [Argument.parse] returns: [(value, found)], or
    [(error, {name: text})] from [handle_validation_error] when errors
    are bundled. *)
Inductive parsed : Type :=
| Value (value : object) (found : bool)
| Invalid (error : exception) (msg : string * string).

Definition handle_validation_error (arg : Argument) (error : exception)
    (bundle_errors : bool) : outcome parsed :=
  let error_str := str_of_exception error in
  let msg := (name arg, error_str) in
  if bundle_errors then Returns (Invalid error msg)
  else Raises (abort 400 [msg]).

(** The loop of [Argument.parse] over the values of the argument: the
    first value [convert] rejects ends it; a converted value takes the
    name out of the unparsed arguments and joins the results. *)
Fixpoint convert_values (arg : Argument) (values : list object)
    (unparsed : list string) : outcome (list object) * list string :=
  match values with
  | [] => (Returns [], unparsed)
  | value :: rest =>
      match convert arg value with
      | Raises error => (Raises error, unparsed)
      | Returns v =>
          match convert_values arg rest (pop (name arg) unparsed) with
          | (Returns results, unparsed') => (Returns (v :: results), unparsed')
          | (Raises error, unparsed') => (Raises error, unparsed')
          end
      end
  end.

Definition missing_required : string :=
  "Missing required parameter in the JSON body or the post body or the query string".

(** [Argument.parse]: no result and not required gives
    [(self.default, False)]; with [action='store'] a found argument
    gives [(results[0], True)]. *)
Definition parse (arg : Argument) (src : source) (unparsed : list string)
    (bundle_errors : bool) : outcome parsed * list string :=
  let values := if has_key (name arg) src then getlist (name arg) src else [] in
  match convert_values arg values unparsed with
  | (Raises error, unparsed') =>
      (handle_validation_error arg error bundle_errors, unparsed')
  | (Returns results, unparsed') =>
      match results with
      | [] =>
          if required arg
          then (handle_validation_error arg (ValueError missing_required)
                  bundle_errors, unparsed')
          else (Returns (Value (default arg) false), unparsed')
      | first :: _ => (Returns (Value first true), unparsed')
      end
  end.

(** The state of the loop of [parse_args]: [namespace], [errors] and
    [req.unparsed_arguments]. *)
Record parse_state : Type := {
  namespace : gmap string object;
  errors : list (string * string);
  unparsed_arguments : list string
}.

(** One turn of [for arg in self.args]:
    [value, found = arg.parse(req, self.bundle_errors)], then
    [if isinstance(value, ValueError): errors.update(found)], then
    [namespace[arg.name] = value] (missing arguments are stored). *)
Definition parse_arg (bundle_errors : bool) (src : source)
    (st : parse_state) (arg : Argument) : outcome parse_state :=
  match parse arg src (unparsed_arguments st) bundle_errors with
  | (Raises e, _) => Raises e
  | (Returns (Value value _), unparsed) =>
      Returns {| namespace := <[name arg := value]> (namespace st);
                 errors := errors st;
                 unparsed_arguments := unparsed |}
  | (Returns (Invalid error (key, text)), unparsed) =>
      Returns {| namespace := <[name arg := Exc error]> (namespace st);
                 errors := if isinstance error "ValueError"
                           then update (errors st) key text
                           else errors st;
                 unparsed_arguments := unparsed |}
  end.

Fixpoint parse_loop (bundle_errors : bool) (src : source)
    (arguments : list Argument) (st : parse_state) : outcome parse_state :=
  match arguments with
  | [] => Returns st
  | arg :: rest =>
      match parse_arg bundle_errors src st arg with
      | Raises e => Raises e
      | Returns st' => parse_loop bundle_errors src rest st'
      end
  end.

Definition join (sep : string) (l : list string) : string :=
  String.concat sep l.

(** [parse_args(strict=strict)]: the unparsed arguments start as
    [dict(source)] when strict; after the loop, [if errors:
    flask_restful.abort(400, message=errors)], then [if strict and
    req.unparsed_arguments: raise exceptions.BadRequest('Unknown
    arguments: %s' % ', '.join(req.unparsed_arguments.keys()))]. *)
Definition parse_args (parser : RequestParser) (src : source) (strict : bool)
  : outcome (gmap string object) :=
  let st := {| namespace := ∅; errors := [];
               unparsed_arguments := if strict then keys src else [] |} in
  match parse_loop (bundle_errors parser) src (args parser) st with
  | Raises e => Raises e
  | Returns st' =>
      match errors st' with
      | _ :: _ => Raises (abort 400 (errors st'))
      | [] =>
          match strict, unparsed_arguments st' with
          | true, _ :: _ =>
              Raises (BadRequest ("Unknown arguments: " +:+
                                  join ", " (unparsed_arguments st')))
          | _, _ => Returns (namespace st')
          end
      end
  end.

(** A JSON object as the decoder gives it: its fields in order.  A body
    that is an array or a scalar is not an object, and is not covered
    by what follows. *)
Definition json_object : Type := list (string * object).

(** [Argument.source] for a request whose JSON body is an object and
    that has no query string or form values: [values.update(request.json)],
    where werkzeug's [iter_multi_items] yields a key of the dict with
    each element of its value when the value is a list, and with the
    value otherwise. *)
Definition iter_multi_items (body : json_object) : source :=
  flat_map (fun item =>
              match snd item with
              | List_ l => map (pair (fst item)) l
              | v => [(fst item, v)]
              end) body.

End reqparse.

(** ** http.HTTPStatus *)

Module HTTPStatus.

Inductive t : Type := OK | BAD_REQUEST | INTERNAL_SERVER_ERROR.

Definition value (status : t) : Z :=
  match status with
  | OK => 200
  | BAD_REQUEST => 400
  | INTERNAL_SERVER_ERROR => 500
  end.

End HTTPStatus.

(** ** The handlers run against a proxy client

    A handler either returns or raises, and all it does to the world is
    call the proxy: a computation takes the calls made so far and gives
    its outcome with the calls made by the end. *)

Module Eff.
Import Py.

(** One call of [fetch_search_results_with_filter], by keyword. *)
Record Call : Type := {
  search_request : object;
  query_term : object;
  page_index : object;
  index : object
}.

Definition t (A : Type) : Type := list Call -> outcome A * list Call.

Definition ret {A : Type} (a : A) : t A := fun calls => (Returns a, calls).

Definition raise {A : Type} (e : exception) : t A := fun calls => (Raises e, calls).

Definition bind {A B : Type} (m : t A) (k : A -> t B) : t B :=
  fun calls =>
    match m calls with
    | (Returns a, calls') => k a calls'
    | (Raises e, calls') => (Raises e, calls')
    end.

(** A computation without effect. *)
Definition lift {A : Type} (o : outcome A) : t A := fun calls => (o, calls).

(** [try: body except cls as e: handler(e)]. *)
Definition try_except {A : Type} (body : t A) (cls : string)
    (handler : exception -> t A) : t A :=
  fun calls =>
    match body calls with
    | (Raises e, calls') =>
        if isinstance e cls then handler e calls' else (Raises e, calls')
    | (Returns a, calls') => (Returns a, calls')
    end.

End Eff.

Notation "'let*' x ':=' m 'in' k" := (Eff.bind m (fun x => k))
  (at level 10, x name, m at level 100, k at level 200).

(** ** search_service/api/filter.py *)

Module filter.
Import Py reqparse.

Section Resources.

(** The interpreter's built-ins. *)
Variable py : Builtins.

(** The objects the proxy returns (search_service.models). *)
Variable Result : Type.

(** The proxy client (search_service.proxy): what a call returns or
    raises, given the calls it has served before. *)
Definition ProxyClient : Type :=
  list Eff.Call -> Eff.Call -> outcome (list Result).

(** A marshmallow schema class, by what it dumps one object to. *)
Definition AttrsSchema : Type := Result -> object.

(** search_service.api.table.TABLE_INDEX *)
Variable TABLE_INDEX : string.

(** search_service.models: the two result schemas. *)
Variable SearchTableResultSchema : AttrsSchema.
Variable SearchDashboardResultSchema : AttrsSchema.

(** search_service.proxy.get_proxy_client() *)
Variable get_proxy_client : ProxyClient.

Definition fetch_search_results_with_filter (proxy : ProxyClient)
    (search_request query_term page_index index : object)
  : Eff.t (list Result) :=
  fun calls =>
    let call := {| Eff.search_request := search_request;
                   Eff.query_term := query_term;
                   Eff.page_index := page_index;
                   Eff.index := index |} in
    (proxy calls call, (calls ++ [call])%list).

(** [schema(many=True).dump(results).data] *)
Definition dump_many (schema : AttrsSchema) (results : list Result) : object :=
  List_ (map schema results).

(** [args.get(key)] and [args[key]] on the parsed namespace. *)
Definition get (args : gmap string object) (key : string) : object :=
  match args !! key with
  | Some v => v
  | None => None_
  end.

Definition getitem (args : gmap string object) (key : string) : outcome object :=
  match args !! key with
  | Some v => Returns v
  | None => Raises (KeyError key)
  end.

(** [o is None] *)
Definition is_None (o : object) : bool :=
  match o with
  | None_ => true
  | _ => false
  end.

Definition response : Type := object * HTTPStatus.t.

Definition message (msg : string) : object := Dict [(Str "message", Str msg)].

Record BaseFilterAPI : Type := {
  proxy : ProxyClient;
  schema : AttrsSchema;
  parser : RequestParser
}.

Definition BaseFilterAPI_init (schema : AttrsSchema) : BaseFilterAPI :=
  let parser := RequestParser_init true in
  let parser := add_argument parser
    {| name := "index"; required := false; default := Str TABLE_INDEX;
       type := Py.str py |} in
  let parser := add_argument parser
    {| name := "page_index"; required := false; default := Int 0;
       type := Py.int py |} in
  let parser := add_argument parser
    {| name := "query_term"; required := false; default := None_;
       type := Py.str py |} in
  let parser := add_argument parser
    {| name := "search_request"; required := false; default := None_;
       type := Py.dict py |} in
  {| proxy := get_proxy_client; schema := schema; parser := parser |}.

Definition BaseFilterAPI_post (self : BaseFilterAPI) (request : source)
  : Eff.t response :=
  let* args := Eff.lift (parse_args (parser self) request true) in
  let page_index := get args "page_index" in
  let search_request := get args "search_request" in
  if is_None search_request then
    let msg := "The search request payload is not available in the request" in
    Eff.ret (message msg, HTTPStatus.BAD_REQUEST)
  else
  let query_term := get args "query_term" in
  let* found := Eff.lift (contains ":" query_term) in
  if found then
    let msg := "The query term contains an invalid character" in
    Eff.ret (message msg, HTTPStatus.BAD_REQUEST)
  else
  Eff.try_except
    (let* index := Eff.lift (getitem args "index") in
     let* results := fetch_search_results_with_filter (proxy self)
                       search_request query_term page_index index in
     Eff.ret (dump_many (schema self) results, HTTPStatus.OK))
    "RuntimeError" (fun e => Eff.raise e).

Definition SearchTableFilterAPI_init : BaseFilterAPI :=
  BaseFilterAPI_init SearchTableResultSchema.

Definition SearchTableFilterAPI_post (self : BaseFilterAPI) (request : source)
  : Eff.t response :=
  Eff.try_except (BaseFilterAPI_post self request)
    "RuntimeError"
    (fun _ =>
       let err_msg := "Exception encountered while processing search request" in
       Eff.ret (message err_msg, HTTPStatus.INTERNAL_SERVER_ERROR)).

Definition SearchDashboardFilterAPI_init : BaseFilterAPI :=
  BaseFilterAPI_init SearchDashboardResultSchema.

Definition SearchDashboardFilterAPI_post (self : BaseFilterAPI) (request : source)
  : Eff.t response :=
  Eff.try_except (BaseFilterAPI_post self request)
    "RuntimeError"
    (fun _ =>
       let err_msg := "Exception encountered while processing search request" in
       Eff.ret (message err_msg, HTTPStatus.INTERNAL_SERVER_ERROR)).

(** The two resources of the service; flask_restful builds the resource
    for each request and calls its [post]. *)
Inductive resource : Type := Table | Dashboard.

Definition bound_schema (r : resource) : AttrsSchema :=
  match r with
  | Table => SearchTableResultSchema
  | Dashboard => SearchDashboardResultSchema
  end.

Definition new (r : resource) : BaseFilterAPI :=
  match r with
  | Table => SearchTableFilterAPI_init
  | Dashboard => SearchDashboardFilterAPI_init
  end.

Definition post (r : resource) (self : BaseFilterAPI) (request : source)
  : Eff.t response :=
  match r with
  | Table => SearchTableFilterAPI_post self request
  | Dashboard => SearchDashboardFilterAPI_post self request
  end.

Definition dispatch_request (r : resource) (request : source) : Eff.t response :=
  post r (new r) request.

(** A request with a JSON object as its body, and no query string or
    form values, at a resource. *)
Definition post_json (r : resource) (body : json_object) : Eff.t response :=
  dispatch_request r (iter_multi_items body).

End Resources.

Arguments proxy {Result} _.
Arguments schema {Result} _.
Arguments parser {Result} _.
Arguments fetch_search_results_with_filter {Result} proxy _ _ _ _.
Arguments dump_many {Result} schema results.
Arguments BaseFilterAPI_init py {Result} TABLE_INDEX get_proxy_client schema.
Arguments BaseFilterAPI_post {Result} self request.
Arguments SearchTableFilterAPI_init py {Result} TABLE_INDEX _ get_proxy_client.
Arguments SearchTableFilterAPI_post {Result} self request.
Arguments SearchDashboardFilterAPI_init py {Result} TABLE_INDEX _ get_proxy_client.
Arguments SearchDashboardFilterAPI_post {Result} self request.
Arguments bound_schema {Result} _ _ r.
Arguments new py {Result} TABLE_INDEX _ _ get_proxy_client r.
Arguments post {Result} r self request.
Arguments dispatch_request py {Result} TABLE_INDEX _ _ get_proxy_client r request.
Arguments post_json py {Result} TABLE_INDEX _ _ get_proxy_client r body.

End filter.

(** ** A sample interpreter, schemas and proxies

    Used to run the handlers on concrete requests; the properties below
    hold for every interpreter, schema and proxy. *)

Module Sample.
Import Py reqparse filter.

Definition digit (c : ascii) : option Z :=
  let n := Z.of_nat (nat_of_ascii c) in
  if (48 <=? n) && (n <=? 57) then Some (n - 48) else None.

Fixpoint digits (acc : Z) (s : string) : option Z :=
  match s with
  | EmptyString => Some acc
  | String c s' =>
      match digit c with
      | Some d => digits (10 * acc + d) s'
      | None => None
      end
  end.

(** Reads a run of ASCII digits with an optional sign, and refuses
    everything else. *)
Definition read_int (s : string) : outcome Z :=
  let refuse := Raises (ValueError ("invalid literal for int() with base 10: '" +:+ s +:+ "'")) in
  match s with
  | EmptyString => refuse
  | String "-" (String c s') =>
      match digits 0 (String c s') with Some n => Returns (- n) | None => refuse end
  | String "+" (String c s') =>
      match digits 0 (String c s') with Some n => Returns n | None => refuse end
  | _ => match digits 0 s with Some n => Returns n | None => refuse end
  end.

Definition py : Builtins := {|
  repr := fun o => "<" +:+ type_name o +:+ ">";
  int_of_literal := read_int;
  dict_of_sequence := fun l =>
    match l with
    | [] => Returns []
    | _ => Raises (TypeError "cannot convert dictionary update sequence element #0 to a sequence")
    end
|}.

(** A result is known by its name; the two schemas expose it under
    different keys. *)
Definition table_schema : AttrsSchema string :=
  fun r => Dict [(Str "name", Str r)].

Definition dashboard_schema : AttrsSchema string :=
  fun r => Dict [(Str "dashboard_name", Str r)].

Definition answers (results : list string) : ProxyClient string :=
  fun _ _ => Returns results.

Definition fails (e : exception) : ProxyClient string :=
  fun _ _ => Raises e.

Definition ConnectionError (text : string) : exception :=
  Error ["ConnectionError"; "OSError"; "Exception"; "BaseException"] text.

(** The namespace of a parse, by argument. *)
Definition namespace_of (index page_index query_term search_request : object)
  : gmap string object :=
  <["search_request" := search_request]>
    (<["query_term" := query_term]>
       (<["page_index" := page_index]> (<["index" := index]> ∅))).

Definition run (proxy : ProxyClient string) (r : resource) (request : source)
  : outcome response * list Eff.Call :=
  dispatch_request py "table_search_index" table_schema dashboard_schema proxy
    r request [].


End Sample.

(** ** Substrings *)

Section Substrings.
Import Py.

Lemma prefix_empty (s : string) : String.prefix "" s = true.
Proof. destruct s; reflexivity. Qed.

Lemma prefix_append (sub rest : string) :
  String.prefix sub (sub +:+ rest) = true.
Proof.
  induction sub as [|c sub IH]; simpl.
  - apply prefix_empty.
  - destruct (ascii_dec c c) as [_|ne]; [exact IH | congruence].
Qed.

Lemma prefix_split (sub s : string) :
  String.prefix sub s = true -> exists rest, s = sub +:+ rest.
Proof.
  revert s. induction sub as [|c sub IH]; intros s H.
  - exists s. reflexivity.
  - destruct s as [|c' s]; simpl in H; [discriminate|].
    destruct (ascii_dec c c') as [->|]; [|discriminate].
    destruct (IH _ H) as [rest ->]. exists rest. reflexivity.
Qed.

Lemma str_contains_prefix (sub s : string) :
  String.prefix sub s = true -> str_contains sub s = true.
Proof. intros H. destruct s; cbn [str_contains]; rewrite H; reflexivity. Qed.

Lemma str_contains_occurs (sub before after : string) :
  str_contains sub (before +:+ sub +:+ after) = true.
Proof.
  induction before as [|c before IH].
  - change ("" +:+ sub +:+ after) with (sub +:+ after).
    apply str_contains_prefix, prefix_append.
  - simpl. rewrite IH. apply orb_true_r.
Qed.

Lemma str_contains_split (sub s : string) :
  str_contains sub s = true -> exists before after, s = before +:+ sub +:+ after.
Proof.
  induction s as [|c s IH]; cbn [str_contains]; intros H.
  - rewrite orb_false_r in H. destruct (prefix_split _ _ H) as [rest ->].
    exists "", rest. reflexivity.
  - apply orb_true_iff in H as [H|H].
    + destruct (prefix_split _ _ H) as [rest E]. exists "", rest. exact E.
    + destruct (IH H) as (before & after & ->).
      exists (String c before), after. reflexivity.
Qed.

Lemma str_contains_free (sub s : string) :
  (forall before after, s <> before +:+ sub +:+ after) ->
  str_contains sub s = false.
Proof.
  intros free. destruct (str_contains sub s) eqn:E; [|reflexivity].
  destruct (str_contains_split _ _ E) as (before & after & ->).
  exfalso. exact (free before after eq_refl).
Qed.

Lemma str_contains_none (sub s : string) :
  str_contains sub s = false ->
  forall before after, s <> before +:+ sub +:+ after.
Proof.
  intros H before after ->. rewrite str_contains_occurs in H. discriminate.
Qed.

End Substrings.

(** ** The request parser *)

Section Parser.
Import Py reqparse.

Lemma has_key_In (key : string) (src : source) :
  has_key key src = true <-> List.In key (map fst src).
Proof.
  unfold has_key. rewrite existsb_exists, in_map_iff. split.
  - intros [item [Hin Heq]]. apply String.eqb_eq in Heq. eauto.
  - intros [item [Heq Hin]]. exists item. split; [exact Hin|].
    apply String.eqb_eq. congruence.
Qed.

Lemma getlist_absent (key : string) (src : source) :
  has_key key src = false -> getlist key src = [].
Proof.
  unfold has_key, getlist. induction src as [|item src IH]; simpl; [reflexivity|].
  intros H. apply orb_false_iff in H as [-> H]. exact (IH H).
Qed.

Lemma pop_In (key k : string) (unparsed : list string) :
  List.In k (pop key unparsed) <-> List.In k unparsed /\ key <> k.
Proof.
  unfold pop. rewrite filter_In, negb_true_iff, String.eqb_neq. reflexivity.
Qed.

Lemma keys_In (k : string) (src : source) :
  List.In k (keys src) <-> List.In k (map fst src).
Proof.
  induction src as [|[key v] src IH]; simpl; [reflexivity|].
  rewrite filter_In, negb_true_iff, String.eqb_neq, IH.
  destruct (String.eqb_spec key k); intuition.
Qed.

(** What the values convert to does not depend on the unparsed
    arguments, and converting takes at most the argument's own name out
    of them. *)
Lemma convert_values_outcome (arg : Argument) (values : list object)
    (u u' : list string) :
  fst (convert_values arg values u) = fst (convert_values arg values u').
Proof.
  revert u u'. induction values as [|v values IH]; intros u u'; simpl.
  - reflexivity.
  - destruct (convert arg v); [|reflexivity].
    specialize (IH (pop (name arg) u) (pop (name arg) u')).
    destruct (convert_values arg values (pop (name arg) u)) as [[]],
             (convert_values arg values (pop (name arg) u')) as [[]];
      simpl in *; congruence.
Qed.


Lemma parse_outcome (arg : Argument) (src : source) (u u' : list string)
    (bundle : bool) :
  fst (parse arg src u bundle) = fst (parse arg src u' bundle).
Proof.
  unfold parse.
  pose proof (convert_values_outcome arg
    (if has_key (name arg) src then getlist (name arg) src else []) u u') as H.
  destruct (convert_values arg _ u) as [[results|e] w],
           (convert_values arg _ u') as [[results'|e'] w']; simpl in H;
    try discriminate; inversion H; subst; clear H.
  - destruct results'; [destruct (required arg)|]; reflexivity.
  - reflexivity.
Qed.


(** An argument absent from the source parses to its default. *)
Lemma parse_absent (arg : Argument) (src : source) (u : list string)
    (bundle : bool) :
  has_key (name arg) src = false -> required arg = false ->
  parse arg src u bundle = (Returns (Value (default arg) false), u).
Proof.
  intros Habs Hreq. unfold parse. rewrite Habs. simpl. rewrite Hreq. reflexivity.
Qed.

(** The parser never raises anything but a 400. *)
Lemma parse_raises (arg : Argument) (src : source) (u : list string)
    (bundle : bool) (e : exception) :
  fst (parse arg src u bundle) = Raises e ->
  exists d m, e = HTTPException 400 d m.
Proof.
  unfold parse, handle_validation_error, abort.
  destruct (convert_values arg _ u) as [[results|e'] w]; simpl.
  - destruct results; [destruct (required arg)|]; simpl; try discriminate.
    destruct bundle; simpl; [discriminate|]. intros [= <-]. eauto.
  - destruct bundle; simpl; [discriminate|]. intros [= <-]. eauto.
Qed.





(** One turn of the loop of [parse_args]. *)
Lemma parse_arg_returns (bundle : bool) (src : source) (st st' : parse_state)
    (arg : Argument) :
  parse_arg bundle src st arg = Returns st' ->
  unparsed_arguments st'
  = snd (parse arg src (unparsed_arguments st) bundle) /\
  match fst (parse arg src (unparsed_arguments st) bundle) with
  | Returns (Value v _) =>
      namespace st' = <[name arg := v]> (namespace st) /\
      errors st' = errors st
  | Returns (Invalid e (key, text)) =>
      namespace st' = <[name arg := Exc e]> (namespace st) /\
      errors st' = if isinstance e "ValueError"
                   then update (errors st) key text else errors st
  | Raises _ => False
  end.
Proof.
  unfold parse_arg.
  destruct (parse arg src (unparsed_arguments st) bundle) as [[[v f|e [key text]]|e] u];
    simpl; intros [= <-]; simpl; auto.
Qed.

Lemma parse_arg_raises (bundle : bool) (src : source) (st : parse_state)
    (arg : Argument) (e : exception) :
  parse_arg bundle src st arg = Raises e ->
  fst (parse arg src (unparsed_arguments st) bundle) = Raises e.
Proof.
  unfold parse_arg.
  destruct (parse arg src (unparsed_arguments st) bundle) as [[[v f|e' [key text]]|e'] u];
    simpl; congruence.
Qed.

Lemma parse_loop_raises (bundle : bool) (src : source)
    (arguments : list Argument) (st : parse_state) (e : exception) :
  parse_loop bundle src arguments st = Raises e ->
  exists d m, e = HTTPException 400 d m.
Proof.
  revert st. induction arguments as [|arg arguments IH]; intros st; simpl.
  - discriminate.
  - destruct (parse_arg bundle src st arg) as [st1|e1] eqn:E.
    + apply IH.
    + intros [= <-]. apply parse_arg_raises in E. eapply parse_raises, E.
Qed.




(** Where the loop leaves a name: untouched when no argument bears it,
    and otherwise holding what an argument of that name parsed to. *)
Lemma parse_loop_namespace (bundle : bool) (src : source)
    (arguments : list Argument) (st st' : parse_state) (n : string) :
  parse_loop bundle src arguments st = Returns st' ->
  (~ List.In n (map name arguments) /\ namespace st' !! n = namespace st !! n) \/
  (exists a, List.In a arguments /\ name a = n /\
     match fst (parse a src [] bundle) with
     | Returns (Value v _) => namespace st' !! n = Some v
     | Returns (Invalid e _) => namespace st' !! n = Some (Exc e)
     | Raises _ => False
     end).
Proof.
  revert st. induction arguments as [|arg arguments IH]; intros st; simpl.
  - intros [= <-]. left. tauto.
  - destruct (parse_arg bundle src st arg) as [st1|e1] eqn:E; [|discriminate].
    intros Hloop. destruct (IH st1 Hloop) as [[Hnot Hsame]|(a & Hin & Hname & Hval)].
    + apply parse_arg_returns in E as [_ E].
      rewrite (parse_outcome arg src _ []) in E.
      destruct (String.eqb_spec (name arg) n) as [Heq|Hne].
      * right. exists arg. split; [tauto|]. split; [exact Heq|].
        destruct (fst (parse arg src [] bundle)) as [[v f|e [key text]]|e];
          [| |exact E]; destruct E as [E _]; rewrite Hsame, E, <- Heq;
          apply lookup_insert_eq.
      * left. split; [tauto|].
        destruct (fst (parse arg src [] bundle)) as [[v f|e [key text]]|e];
          [| |contradiction]; destruct E as [E _]; rewrite Hsame, E;
          apply lookup_insert_ne; exact Hne.
    + right. exists a. tauto.
Qed.


Lemma name_injective (arguments : list Argument) (a a' : Argument) :
  List.NoDup (map name arguments) ->
  List.In a arguments -> List.In a' arguments -> name a = name a' -> a = a'.
Proof.
  induction arguments as [|arg arguments IH]; simpl; [tauto|].
  intros ND Ha Ha' Heq. inversion ND as [|x l Hfresh ND']; subst.
  destruct Ha as [<-|Ha], Ha' as [<-|Ha']; auto.
  - exfalso. apply Hfresh. rewrite Heq. apply in_map, Ha'.
  - exfalso. apply Hfresh. rewrite <- Heq. apply in_map, Ha.
Qed.

(** [parse_args] as a whole. *)
Lemma parse_args_returns (parser : RequestParser) (src : source)
    (strict : bool) (ns : gmap string object) :
  parse_args parser src strict = Returns ns ->
  exists st,
    parse_loop (bundle_errors parser) src (args parser)
      {| namespace := ∅; errors := [];
         unparsed_arguments := if strict then keys src else [] |}
    = Returns st /\ namespace st = ns /\ errors st = [] /\
    (strict = true -> unparsed_arguments st = []).
Proof.
  unfold parse_args.
  destruct (parse_loop _ src _ _) as [st|e]; [|discriminate].
  destruct (errors st) eqn:Eerr; [|discriminate].
  destruct strict; [destruct (unparsed_arguments st) eqn:Eun|];
    try discriminate; intros [= <-]; exists st; repeat split;
    auto; discriminate.
Qed.

Lemma parse_args_raises (parser : RequestParser) (src : source)
    (strict : bool) (e : exception) :
  parse_args parser src strict = Raises e ->
  exists d m, e = HTTPException 400 d m.
Proof.
  unfold parse_args, abort, BadRequest.
  destruct (parse_loop _ src _ _) as [st|e'] eqn:L.
  - destruct (errors st); [|intros [= <-]; eauto].
    destruct strict; [destruct (unparsed_arguments st)|];
      try discriminate; intros [= <-]; eauto.
  - intros [= <-]. eapply parse_loop_raises, L.
Qed.

(** Every argument has its entry in the namespace. *)
Lemma parse_args_keys (parser : RequestParser) (src : source)
    (strict : bool) (ns : gmap string object) (a : Argument) :
  parse_args parser src strict = Returns ns ->
  List.In a (args parser) -> is_Some (ns !! name a).
Proof.
  intros H Hin. apply parse_args_returns in H as (st & L & <- & _).
  destruct (parse_loop_namespace _ _ _ _ _ (name a) L)
    as [[Hnot _]|(a' & _ & _ & Hval)].
  - exfalso. apply Hnot, in_map, Hin.
  - destruct (fst (parse a' src [] _)) as [[v f|e m]|e]; [eauto|eauto|tauto].
Qed.

(** An argument that is not required and absent from the source is in
    the namespace with its default. *)
Lemma parse_args_absent (parser : RequestParser) (src : source)
    (strict : bool) (ns : gmap string object) (a : Argument) :
  List.NoDup (map name (args parser)) ->
  List.In a (args parser) ->
  has_key (name a) src = false -> required a = false ->
  parse_args parser src strict = Returns ns ->
  ns !! name a = Some (default a).
Proof.
  intros ND Hin Habs Hreq H. apply parse_args_returns in H as (st & L & <- & _).
  destruct (parse_loop_namespace _ _ _ _ _ (name a) L)
    as [[Hnot _]|(a' & Hin' & Hname & Hval)].
  - exfalso. apply Hnot, in_map, Hin.
  - assert (a' = a) as -> by (eapply name_injective; eauto).
    rewrite (parse_absent a src [] _ Habs Hreq) in Hval. exact Hval.
Qed.



(** An argument with one value in the source, which [type] converts,
    is in the namespace with the converted value. *)
Lemma parse_args_single (parser : RequestParser) (src : source)
    (strict : bool) (ns : gmap string object) (a : Argument) (v v' : object) :
  List.NoDup (map name (args parser)) ->
  List.In a (args parser) ->
  getlist (name a) src = [v] -> convert a v = Returns v' ->
  parse_args parser src strict = Returns ns ->
  ns !! name a = Some v'.
Proof.
  intros ND Hin Hone Hconv H. apply parse_args_returns in H as (st & L & <- & _).
  destruct (parse_loop_namespace _ _ _ _ _ (name a) L)
    as [[Hnot _]|(a' & Hin' & Hname & Hval)].
  - exfalso. apply Hnot, in_map, Hin.
  - assert (a' = a) as -> by (eapply name_injective; eauto).
    assert (has_key (name a) src = true) as K.
    { destruct (has_key (name a) src) eqn:K; [reflexivity|].
      rewrite (getlist_absent _ _ K) in Hone. discriminate. }
    unfold parse in Hval. rewrite K, Hone in Hval. simpl in Hval.
    rewrite Hconv in Hval. exact Hval.
Qed.







End Parser.

(** ** The post handlers *)

Section Handlers.
Import Py reqparse filter.

Context (py : Builtins) {Result : Type} (TABLE_INDEX : string)
  (SearchTableResultSchema SearchDashboardResultSchema : AttrsSchema Result)
  (get_proxy_client : ProxyClient Result).

Local Abbreviation new :=
  (filter.new py TABLE_INDEX SearchTableResultSchema
     SearchDashboardResultSchema get_proxy_client).
Local Abbreviation dispatch :=
  (dispatch_request py TABLE_INDEX SearchTableResultSchema
     SearchDashboardResultSchema get_proxy_client).
Local Abbreviation schema_of :=
  (bound_schema SearchTableResultSchema SearchDashboardResultSchema).

Local Abbreviation not_available :=
  "The search request payload is not available in the request".
Local Abbreviation invalid_character :=
  "The query term contains an invalid character".
Local Abbreviation exception_encountered :=
  "Exception encountered while processing search request".

(** What a handler passes to the proxy for a parsed namespace. *)
Local Abbreviation call_of args :=
  {| Eff.search_request := get args "search_request";
     Eff.query_term := get args "query_term";
     Eff.page_index := get args "page_index";
     Eff.index := get args "index" |}.

Lemma new_proxy (r : resource) : proxy (new r) = get_proxy_client.
Proof. destruct r; reflexivity. Qed.

Lemma new_schema (r : resource) : schema (new r) = schema_of r.
Proof. destruct r; reflexivity. Qed.

Lemma new_parser (r : resource) :
  bundle_errors (parser (new r)) = true /\
  map name (args (parser (new r)))
  = ["index"; "page_index"; "query_term"; "search_request"].
Proof. destruct r; split; reflexivity. Qed.

Lemma new_parser_NoDup (r : resource) :
  List.NoDup (map name (args (parser (new r)))).
Proof.
  destruct (new_parser r) as [_ ->].
  repeat constructor; simpl; intuition discriminate.
Qed.

Lemma contains_raises (sub : string) (o : object) (e : exception) :
  contains sub o = Raises e -> isinstance e "RuntimeError" = false.
Proof.
  destruct o as [| | | | | |[]]; simpl; try discriminate;
    intros [= <-]; reflexivity.
Qed.

(** A request the parser refuses: the 400 of the parser leaves the
    resource as it is, and the proxy is not called. *)
Lemma dispatch_refused (r : resource) (request : source) (e : exception)
    (calls : list Eff.Call) :
  parse_args (parser (new r)) request true = Raises e ->
  dispatch r request calls = (Raises e, calls).
Proof.
  intros H. destruct (parse_args_raises _ _ _ _ H) as (d & m & ->).
  destruct r; unfold dispatch_request, post, SearchTableFilterAPI_post,
    SearchDashboardFilterAPI_post, BaseFilterAPI_post, Eff.try_except,
    Eff.bind, Eff.lift; rewrite H; reflexivity.
Qed.

(** A request the parser accepts: the handler as a function of the
    parsed namespace. *)
Lemma dispatch_parsed (r : resource) (request : source)
    (args : gmap string object) (calls : list Eff.Call) :
  parse_args (parser (new r)) request true = Returns args ->
  dispatch r request calls =
    if is_None (get args "search_request")
    then (Returns (message not_available, HTTPStatus.BAD_REQUEST), calls)
    else
      match contains ":" (get args "query_term") with
      | Raises e => (Raises e, calls)
      | Returns true =>
          (Returns (message invalid_character, HTTPStatus.BAD_REQUEST), calls)
      | Returns false =>
          match get_proxy_client calls (call_of args) with
          | Returns results =>
              (Returns (dump_many (schema_of r) results, HTTPStatus.OK),
               (calls ++ [call_of args])%list)
          | Raises e =>
              if isinstance e "RuntimeError"
              then (Returns (message exception_encountered,
                             HTTPStatus.INTERNAL_SERVER_ERROR),
                    (calls ++ [call_of args])%list)
              else (Raises e, (calls ++ [call_of args])%list)
          end
      end.
Proof.
  intros H.
  assert (getitem args "index" = Returns (get args "index")) as Hindex.
  { assert (is_Some (args !! "index")) as [v Hv].
    { destruct r;
        apply (parse_args_keys _ _ _ _
                 {| name := "index"; required := false;
                    default := Str TABLE_INDEX; type := Py.str py |} H);
        simpl; auto. }
    unfold getitem, get. rewrite Hv. reflexivity. }
  pose proof (new_proxy r) as Hproxy. pose proof (new_schema r) as Hschema.
  destruct r; unfold dispatch_request, post, SearchTableFilterAPI_post,
    SearchDashboardFilterAPI_post, BaseFilterAPI_post, Eff.try_except,
    Eff.bind, Eff.lift, Eff.ret, Eff.raise,
    fetch_search_results_with_filter; rewrite H;
    (destruct (is_None (get args "search_request")); [reflexivity|]);
    (destruct (contains ":" (get args "query_term")) as [[]|e] eqn:C;
       [reflexivity| |rewrite (contains_raises _ _ _ C); reflexivity]);
    rewrite Hindex, Hproxy, Hschema;
    (destruct (get_proxy_client calls _) as [results|e]; [reflexivity|]);
    destruct (isinstance e "RuntimeError") eqn:I; rewrite ?I; reflexivity.
Qed.

(** C1: a request that parses, with a search_request that is not None
    and a query_term that is a string without ':', makes exactly one call
    to the proxy, with the parsed search_request, query_term, page_index
    and index, and on the sequence of results the proxy returns the
    response is 200 with each result dumped through the schema of the
    resource (an empty sequence gives an empty list). *)
Theorem post_ok (r : resource) (request : source) (args : gmap string object)
    (q : string) (calls : list Eff.Call) :
  parse_args (parser (new r)) request true = Returns args ->
  get args "search_request" <> None_ ->
  get args "query_term" = Str q ->
  (forall before after, q <> before +:+ ":" +:+ after) ->
  snd (dispatch r request calls) = (calls ++ [call_of args])%list /\
  forall results,
    get_proxy_client calls (call_of args) = Returns results ->
    dispatch r request calls
    = (Returns (List_ (map (schema_of r) results), HTTPStatus.OK),
       (calls ++ [call_of args])%list).
Proof.
  intros Hparse Hsr Hq Hfree.
  rewrite (dispatch_parsed r request args calls Hparse).
  destruct (get args "search_request"); try congruence;
    rewrite Hq; cbn [contains is_None]; rewrite (str_contains_free _ _ Hfree);
    rewrite <- Hq;
    (split;
     [destruct (get_proxy_client _ _); [|destruct (isinstance _ _)]; reflexivity
     |intros results ->; reflexivity]).
Qed.

(** C2 (as amended): for a request that passes validation, a proxy call
    that fails with a RuntimeError (an instance of the class or of a
    subclass) gives the 500 response with exactly the message
    "Exception encountered while processing search request", whatever
    the text of the error, and nothing is raised out of the resource. *)
Theorem post_runtime_error (r : resource) (request : source)
    (args : gmap string object) (q : string) (e : exception)
    (calls : list Eff.Call) :
  parse_args (parser (new r)) request true = Returns args ->
  get args "search_request" <> None_ ->
  get args "query_term" = Str q ->
  (forall before after, q <> before +:+ ":" +:+ after) ->
  get_proxy_client calls (call_of args) = Raises e ->
  isinstance e "RuntimeError" = true ->
  dispatch r request calls
  = (Returns (message "Exception encountered while processing search request",
              HTTPStatus.INTERNAL_SERVER_ERROR),
     (calls ++ [call_of args])%list).
Proof.
  intros Hparse Hsr Hq Hfree Hproxy Hcls.
  rewrite (dispatch_parsed r request args calls Hparse).
  destruct (get args "search_request"); try congruence;
    rewrite Hq; simpl; rewrite (str_contains_free _ _ Hfree);
    rewrite <- Hq, Hproxy, Hcls; reflexivity.
Qed.

(** X7: a failure of the proxy that is not a RuntimeError leaves the
    resource as it was raised, after the one call, and no response is
    made. *)
Lemma post_other_error (r : resource) (request : source)
    (args : gmap string object) (q : string) (e : exception)
    (calls : list Eff.Call) :
  parse_args (parser (new r)) request true = Returns args ->
  get args "search_request" <> None_ ->
  get args "query_term" = Str q ->
  (forall before after, q <> before +:+ ":" +:+ after) ->
  get_proxy_client calls (call_of args) = Raises e ->
  isinstance e "RuntimeError" = false ->
  dispatch r request calls = (Raises e, (calls ++ [call_of args])%list).
Proof.
  intros Hparse Hsr Hq Hfree Hproxy Hcls.
  rewrite (dispatch_parsed r request args calls Hparse).
  destruct (get args "search_request"); try congruence;
    rewrite Hq; simpl; rewrite (str_contains_free _ _ Hfree);
    rewrite <- Hq, Hproxy, Hcls; reflexivity.
Qed.

(** C3: a request that parses, with a search_request that is not None
    and a query_term that is a string with a ':' anywhere in it (any
    text, or none, before and after), gets the 400 response with exactly
    the message "The query term contains an invalid character", and the
    proxy is not called. *)
Theorem post_invalid_character (r : resource) (request : source)
    (args : gmap string object) (before after : string)
    (calls : list Eff.Call) :
  parse_args (parser (new r)) request true = Returns args ->
  get args "search_request" <> None_ ->
  get args "query_term" = Str (before +:+ ":" +:+ after) ->
  dispatch r request calls
  = (Returns (message "The query term contains an invalid character",
              HTTPStatus.BAD_REQUEST),
     calls).
Proof.
  intros Hparse Hsr Hq.
  rewrite (dispatch_parsed r request args calls Hparse).
  destruct (get args "search_request"); try congruence;
    rewrite Hq; cbn [contains is_None];
    rewrite str_contains_occurs; reflexivity.
Qed.

(** C4: a request that parses with no search_request (it parses to
    None) gets the 400 response with exactly the message "The search
    request payload is not available in the request", and the proxy is
    not called. *)
Theorem post_search_request_missing (r : resource) (request : source)
    (args : gmap string object) (calls : list Eff.Call) :
  parse_args (parser (new r)) request true = Returns args ->
  get args "search_request" = None_ ->
  dispatch r request calls
  = (Returns (message "The search request payload is not available in the request",
              HTTPStatus.BAD_REQUEST),
     calls).
Proof.
  intros Hparse Hsr.
  rewrite (dispatch_parsed r request args calls Hparse), Hsr. reflexivity.
Qed.



(** C6: in a request that parses, a page_index that is omitted parses to
    0 and an index that is omitted parses to TABLE_INDEX, on the table
    resource and on the dashboard resource alike, and these defaults are
    what the handler passes to the proxy: a request with a
    search_request and a query_term without ':' makes one call, in which
    an omitted page_index is 0 and an omitted index is TABLE_INDEX. *)
Theorem post_defaults (r : resource) (request : source)
    (args : gmap string object) (calls : list Eff.Call) :
  parse_args (parser (new r)) request true = Returns args ->
  (has_key "page_index" request = false -> args !! "page_index" = Some (Int 0)) /\
  (has_key "index" request = false -> args !! "index" = Some (Str TABLE_INDEX)) /\
  (forall q,
     get args "search_request" <> None_ ->
     get args "query_term" = Str q ->
     (forall before after, q <> before +:+ ":" +:+ after) ->
     snd (dispatch r request calls)
     = (calls ++
        [ {| Eff.search_request := get args "search_request";
             Eff.query_term := Str q;
             Eff.page_index := if has_key "page_index" request
                               then get args "page_index" else Int 0;
             Eff.index := if has_key "index" request
                          then get args "index" else Str TABLE_INDEX |} ])%list).
Proof.
  intros Hparse.
  assert (has_key "page_index" request = false ->
          args !! "page_index" = Some (Int 0)) as Hpage.
  { intros Habs.
    apply (parse_args_absent _ _ _ _
             {| name := "page_index"; required := false; default := Int 0;
                type := Py.int py |} (new_parser_NoDup r)) in Hparse;
      [exact Hparse| |exact Habs|reflexivity].
    destruct r; simpl; auto. }
  assert (has_key "index" request = false ->
          args !! "index" = Some (Str TABLE_INDEX)) as Hindex.
  { intros Habs.
    apply (parse_args_absent _ _ _ _
             {| name := "index"; required := false; default := Str TABLE_INDEX;
                type := Py.str py |} (new_parser_NoDup r)) in Hparse;
      [exact Hparse| |exact Habs|reflexivity].
    destruct r; simpl; auto. }
  split; [exact Hpage|]. split; [exact Hindex|].
  intros q Hsr Hq Hfree.
  assert ((if has_key "page_index" request
           then get args "page_index" else Int 0) = get args "page_index") as ->.
  { destruct (has_key "page_index" request); [reflexivity|].
    unfold get. rewrite (Hpage eq_refl). reflexivity. }
  assert ((if has_key "index" request
           then get args "index" else Str TABLE_INDEX) = get args "index") as ->.
  { destruct (has_key "index" request); [reflexivity|].
    unfold get. rewrite (Hindex eq_refl). reflexivity. }
  rewrite (dispatch_parsed r request args calls Hparse).
  rewrite <- Hq.
  destruct (get args "search_request"); try congruence;
    rewrite Hq; cbn [contains is_None]; rewrite (str_contains_free _ _ Hfree);
    rewrite <- Hq;
    (destruct (get_proxy_client _ _); [|destruct (isinstance _ _)]; reflexivity).
Qed.

(** C7: the check of search_request comes first: in a request that
    parses with no search_request the response is the 400 with "The
    search request payload is not available in the request" whatever
    query_term is, and a query_term with a ':' in it gets that message
    when search_request is None and "The query term contains an invalid
    character" otherwise; in all these cases the proxy is not called. *)
Theorem post_search_request_first (r : resource) (request : source)
    (args : gmap string object) (calls : list Eff.Call) :
  parse_args (parser (new r)) request true = Returns args ->
  (get args "search_request" = None_ ->
   dispatch r request calls
   = (Returns (message "The search request payload is not available in the request",
               HTTPStatus.BAD_REQUEST),
      calls)) /\
  (forall before after,
     get args "query_term" = Str (before +:+ ":" +:+ after) ->
     dispatch r request calls
     = (Returns (message
                   (if is_None (get args "search_request")
                    then "The search request payload is not available in the request"
                    else "The query term contains an invalid character"),
                 HTTPStatus.BAD_REQUEST),
        calls)).
Proof.
  intros Hparse. rewrite (dispatch_parsed r request args calls Hparse). split.
  - intros ->. reflexivity.
  - intros before after Hq. destruct (is_None _); [reflexivity|].
    rewrite Hq. cbn [contains]. rewrite str_contains_occurs. reflexivity.
Qed.

(** C8: on every request the table resource and the dashboard resource
    do the same: both raise the same exception, or both return the same
    status after the same calls to the proxy; a response that is not a
    200 is the same on both, one of the two 400 messages or the 500
    message; a 200 is the same sequence of results dumped through the
    schema of each resource. *)
Theorem table_dashboard_agree (request : source) (calls : list Eff.Call) :
  match dispatch Table request calls, dispatch Dashboard request calls with
  | (Returns (body_t, status_t), calls_t), (Returns (body_d, status_d), calls_d) =>
      status_t = status_d /\ calls_t = calls_d /\
      match status_t with
      | HTTPStatus.OK =>
          exists results,
            body_t = dump_many SearchTableResultSchema results /\
            body_d = dump_many SearchDashboardResultSchema results
      | HTTPStatus.BAD_REQUEST =>
          body_t = body_d /\
          (body_t = message "The search request payload is not available in the request" \/
           body_t = message "The query term contains an invalid character")
      | HTTPStatus.INTERNAL_SERVER_ERROR =>
          body_t = body_d /\
          body_t = message "Exception encountered while processing search request"
      end
  | (Raises e_t, calls_t), (Raises e_d, calls_d) =>
      e_t = e_d /\ calls_t = calls_d
  | _, _ => False
  end.
Proof.
  destruct (parse_args (parser (new Table)) request true) as [args|e] eqn:Hparse.
  - rewrite (dispatch_parsed Table request args calls Hparse).
    rewrite (dispatch_parsed Dashboard request args calls Hparse).
    destruct (is_None _); [simpl; auto|].
    destruct (contains _ _) as [[]|]; [simpl; auto| |auto].
    destruct (get_proxy_client _ _) as [results|e].
    + simpl. repeat split; eauto.
    + destruct (isinstance _ _); simpl; auto.
  - rewrite (dispatch_refused Table request e calls Hparse).
    rewrite (dispatch_refused Dashboard request e calls Hparse). auto.
Qed.

(** C9: a request that parses with a search_request that is not None
    and no query_term (it parses to None) has the membership test raise
    a TypeError that nothing catches: the handler returns no response,
    neither a 200 nor a 400, and the proxy is not called. *)
Theorem post_query_term_none (r : resource) (request : source)
    (args : gmap string object) (calls : list Eff.Call) :
  parse_args (parser (new r)) request true = Returns args ->
  get args "search_request" <> None_ ->
  get args "query_term" = None_ ->
  exists text, dispatch r request calls = (Raises (TypeError text), calls).
Proof.
  intros Hparse Hsr Hq.
  rewrite (dispatch_parsed r request args calls Hparse), Hq.
  destruct (get args "search_request"); try congruence;
    eexists; reflexivity.
Qed.

(** C10: page_index has no lower bound: a request that parses, supplies
    a negative integer as page_index, has a search_request that is not
    None and a query_term without ':', has that negative integer as its
    parsed page_index and passed unchanged to the proxy, in the one call
    the handler makes, and is answered 200 when the proxy returns. *)
Theorem post_negative_page_index (r : resource) (request : source)
    (args : gmap string object) (q : string) (n : Z) (calls : list Eff.Call) :
  parse_args (parser (new r)) request true = Returns args ->
  getlist "page_index" request = [Int n] -> n < 0 ->
  get args "search_request" <> None_ ->
  get args "query_term" = Str q ->
  (forall before after, q <> before +:+ ":" +:+ after) ->
  get args "page_index" = Int n /\
  snd (dispatch r request calls)
  = (calls ++ [ {| Eff.search_request := get args "search_request";
                   Eff.query_term := Str q;
                   Eff.page_index := Int n;
                   Eff.index := get args "index" |} ])%list /\
  forall results,
    get_proxy_client calls (call_of args) = Returns results ->
    fst (dispatch r request calls)
    = Returns (List_ (map (schema_of r) results), HTTPStatus.OK).
Proof.
  intros Hparse Hone Hneg Hsr Hq Hfree.
  assert (get args "page_index" = Int n) as Hpage.
  { assert (args !! "page_index" = Some (Int n)) as Hlookup.
    { apply (parse_args_single (parser (new r)) request true args
               {| name := "page_index"; required := false; default := Int 0;
                  type := Py.int py |} (Int n) (Int n)
               (new_parser_NoDup r));
        [|exact Hone|reflexivity|exact Hparse].
      destruct r; simpl; auto. }
    unfold get. rewrite Hlookup. reflexivity. }
  split; [exact Hpage|].
  rewrite (dispatch_parsed r request args calls Hparse).
  rewrite <- Hpage, <- Hq.
  destruct (get args "search_request"); try congruence;
    rewrite Hq; cbn [contains is_None]; rewrite (str_contains_free _ _ Hfree);
    rewrite <- Hq;
    (split;
     [destruct (get_proxy_client _ _); [|destruct (isinstance _ _)]; reflexivity
     |intros results ->; reflexivity]).
Qed.

End Handlers.

(** ** The handlers on concrete requests *)

Section Runs.
Import Py reqparse filter.

Local Abbreviation call sr q page idx :=
  {| Eff.search_request := sr; Eff.query_term := q;
     Eff.page_index := page; Eff.index := idx |}.

(** C1 at the request {"search_request": {"resource": "table"},
    "query_term": "foo", "page_index": 2} on the table resource, with a
    proxy that finds nothing. *)
Lemma post_ok_witness :
  Sample.run (Sample.answers []) Table
    [("search_request", Dict [(Str "resource", Str "table")]);
     ("query_term", Str "foo"); ("page_index", Int 2)]
  = (Returns (List_ [], HTTPStatus.OK),
     [call (Dict [(Str "resource", Str "table")]) (Str "foo") (Int 2)
           (Str "table_search_index")]).
Proof.
  refine (proj2 (post_ok Sample.py "table_search_index" Sample.table_schema
                   Sample.dashboard_schema (Sample.answers []) Table _
                   (Sample.namespace_of (Str "table_search_index") (Int 2)
                      (Str "foo") (Dict [(Str "resource", Str "table")]))
                   "foo" [] _ _ _ _) [] _).
  - vm_compute. reflexivity.
  - vm_compute. discriminate.
  - vm_compute. reflexivity.
  - apply str_contains_none. reflexivity.
  - reflexivity.
Defined.

(** C2 (as amended) on the dashboard resource, with a proxy that raises
    a RuntimeError. *)
Lemma post_runtime_error_witness :
  Sample.run (Sample.fails (RuntimeError "backend is down")) Dashboard
    [("search_request", Dict []); ("query_term", Str "foo")]
  = (Returns (message "Exception encountered while processing search request",
              HTTPStatus.INTERNAL_SERVER_ERROR),
     [call (Dict []) (Str "foo") (Int 0) (Str "table_search_index")]).
Proof.
  apply (post_runtime_error Sample.py "table_search_index" Sample.table_schema
           Sample.dashboard_schema (Sample.fails (RuntimeError "backend is down"))
           Dashboard _
           (Sample.namespace_of (Str "table_search_index") (Int 0) (Str "foo")
              (Dict []))
           "foo" (RuntimeError "backend is down") []).
  - vm_compute. reflexivity.
  - vm_compute. discriminate.
  - vm_compute. reflexivity.
  - apply str_contains_none. reflexivity.
  - reflexivity.
  - reflexivity.
Defined.

(** C2 as it is stated fails: a proxy that fails with an error that is
    not a RuntimeError has the error leave the resource, and no 500
    response is made. *)
Lemma post_failure_propagates :
  Sample.run (Sample.fails (Sample.ConnectionError "connection refused")) Table
    [("search_request", Dict []); ("query_term", Str "foo")]
  = (Raises (Sample.ConnectionError "connection refused"),
     [call (Dict []) (Str "foo") (Int 0) (Str "table_search_index")]).
Proof. vm_compute. reflexivity. Qed.

(** C3 at the request {"query_term": "a:b", "search_request": {}}. *)
Lemma post_invalid_character_witness :
  Sample.run (Sample.answers ["t"]) Table
    [("query_term", Str "a:b"); ("search_request", Dict [])]
  = (Returns (message "The query term contains an invalid character",
              HTTPStatus.BAD_REQUEST), []).
Proof.
  apply (post_invalid_character Sample.py "table_search_index"
           Sample.table_schema Sample.dashboard_schema (Sample.answers ["t"])
           Table _
           (Sample.namespace_of (Str "table_search_index") (Int 0) (Str "a:b")
              (Dict []))
           "a" "b" []).
  - vm_compute. reflexivity.
  - vm_compute. discriminate.
  - vm_compute. reflexivity.
Defined.

(** A ':' at the start, in the middle, at the end, and alone. *)
Example invalid_character_anywhere :
  Forall (fun q =>
            Sample.run (Sample.answers ["t"]) Table
              [("query_term", Str q); ("search_request", Dict [])]
            = (Returns (message "The query term contains an invalid character",
                        HTTPStatus.BAD_REQUEST), []))
    [":b"; "a:b"; "a:"; ":"].
Proof. repeat constructor. Qed.

(** C4 at the request {"query_term": "foo"}. *)
Lemma post_search_request_missing_witness :
  Sample.run (Sample.answers ["t"]) Dashboard [("query_term", Str "foo")]
  = (Returns (message "The search request payload is not available in the request",
              HTTPStatus.BAD_REQUEST), []).
Proof.
  apply (post_search_request_missing Sample.py "table_search_index"
           Sample.table_schema Sample.dashboard_schema (Sample.answers ["t"])
           Dashboard _
           (Sample.namespace_of (Str "table_search_index") (Int 0) (Str "foo")
              None_)
           []).
  - vm_compute. reflexivity.
  - vm_compute. reflexivity.
Defined.


(** The 400 of that request: the two rejected values are listed
    together, and the unknown field is not. *)
Example bundled_errors :
  Sample.run (Sample.answers ["t"]) Table
    [("page_index", Str "abc"); ("search_request", Str "xyz");
     ("limit", Int 10)]
  = (Raises (HTTPException 400 bad_request_description
               [("page_index", "invalid literal for int() with base 10: 'abc'");
                ("search_request",
                 "dictionary update sequence element #0 has length 1; 2 is required")]),
     []).
Proof. vm_compute. reflexivity. Qed.


(** C6 at the request {"search_request": {}, "query_term": "foo"}, which
    leaves out page_index and index: they parse to the defaults, and the
    one call to the proxy carries them. *)
Lemma post_defaults_witness :
  let request := [("search_request", Dict []); ("query_term", Str "foo")] in
  let args := Sample.namespace_of (Str "table_search_index") (Int 0)
                (Str "foo") (Dict []) in
  args !! "page_index" = Some (Int 0) /\
  args !! "index" = Some (Str "table_search_index") /\
  snd (Sample.run (Sample.answers ["t"]) Dashboard request)
  = [call (Dict []) (Str "foo") (Int 0) (Str "table_search_index")].
Proof.
  intros request args.
  assert (parse_args
            (parser (filter.new Sample.py "table_search_index"
                       Sample.table_schema Sample.dashboard_schema
                       (Sample.answers ["t"]) Dashboard)) request true
          = Returns args) as Hparse by (vm_compute; reflexivity).
  destruct (post_defaults Sample.py "table_search_index" Sample.table_schema
              Sample.dashboard_schema (Sample.answers ["t"]) Dashboard
              request args [] Hparse) as (Hpage & Hindex & Hcall).
  split; [apply Hpage; reflexivity|]. split; [apply Hindex; reflexivity|].
  apply (Hcall "foo").
  - vm_compute. discriminate.
  - vm_compute. reflexivity.
  - apply str_contains_none. reflexivity.
Defined.

(** C7 at the request {"query_term": "a:b"}: no search_request, and a
    query_term with a ':' in it. *)
Lemma post_search_request_first_witness :
  Sample.run (Sample.answers ["t"]) Table [("query_term", Str "a:b")]
  = (Returns (message "The search request payload is not available in the request",
              HTTPStatus.BAD_REQUEST), []).
Proof.
  assert (parse_args
            (parser (filter.new Sample.py "table_search_index"
                       Sample.table_schema Sample.dashboard_schema
                       (Sample.answers ["t"]) Table))
            [("query_term", Str "a:b")] true
          = Returns (Sample.namespace_of (Str "table_search_index") (Int 0)
                       (Str "a:b") None_)) as Hparse by (vm_compute; reflexivity).
  apply (proj2 (post_search_request_first Sample.py "table_search_index"
                  Sample.table_schema Sample.dashboard_schema
                  (Sample.answers ["t"]) Table _ _ [] Hparse) "a" "b").
  vm_compute. reflexivity.
Defined.

(** C9 at the request {"search_request": {}}. *)
Lemma post_query_term_none_witness :
  exists text,
    Sample.run (Sample.answers ["t"]) Table [("search_request", Dict [])]
    = (Raises (TypeError text), []).
Proof.
  apply (post_query_term_none Sample.py "table_search_index"
           Sample.table_schema Sample.dashboard_schema (Sample.answers ["t"])
           Table _
           (Sample.namespace_of (Str "table_search_index") (Int 0) None_
              (Dict []))
           []).
  - vm_compute. reflexivity.
  - vm_compute. discriminate.
  - vm_compute. reflexivity.
Defined.

(** C10 at the request {"search_request": {}, "query_term": "foo",
    "page_index": -3}. *)
Lemma post_negative_page_index_witness :
  let request := [("search_request", Dict []); ("query_term", Str "foo");
                  ("page_index", Int (-3))] in
  let args := Sample.namespace_of (Str "table_search_index") (Int (-3))
                (Str "foo") (Dict []) in
  filter.get args "page_index" = Int (-3) /\
  snd (Sample.run (Sample.answers ["t"]) Table request)
  = [call (Dict []) (Str "foo") (Int (-3)) (Str "table_search_index")] /\
  fst (Sample.run (Sample.answers ["t"]) Table request)
  = Returns (List_ [Dict [(Str "name", Str "t")]], HTTPStatus.OK).
Proof.
  intros request args.
  destruct (post_negative_page_index Sample.py "table_search_index"
              Sample.table_schema Sample.dashboard_schema (Sample.answers ["t"])
              Table request args "foo" (-3) [])
    as (Hpage & Hcalls & Hresp).
  - vm_compute. reflexivity.
  - reflexivity.
  - lia.
  - vm_compute. discriminate.
  - vm_compute. reflexivity.
  - apply str_contains_none. reflexivity.
  - split; [exact Hpage|]. split; [exact Hcalls|].
    apply (Hresp ["t"]). reflexivity.
Defined.

End Runs.

(** ** Requests the parser accepts *)

Section Accepts.
Import Py reqparse.

Lemma pop_pop (key : string) (u : list string) :
  pop key (pop key u) = pop key u.
Proof.
  unfold pop. induction u as [|k u IH]; simpl; [reflexivity|].
  destruct (negb (String.eqb key k)) eqn:E; simpl; rewrite ?E; congruence.
Qed.

Lemma getlist_present (key : string) (src : source) :
  has_key key src = true -> getlist key src <> [].
Proof.
  unfold has_key, getlist. induction src as [|item src IH]; simpl; [discriminate|].
  destruct (String.eqb key (fst item)); simpl; [discriminate|exact IH].
Qed.

(** When [convert] takes every value, the loop over the values returns,
    with a result for the first of them, and the name is out of the
    unparsed arguments as soon as there is a value. *)
Lemma convert_values_accepts (arg : Argument) (values : list object)
    (u : list string) :
  (forall v, List.In v values -> exists v', convert arg v = Returns v') ->
  exists results,
    convert_values arg values u
    = (Returns results,
       match values with [] => u | _ :: _ => pop (name arg) u end) /\
    (values <> [] -> results <> []).
Proof.
  revert u. induction values as [|v values IH]; intros u Hall; simpl.
  - exists []. split; [reflexivity|congruence].
  - destruct (Hall v (or_introl eq_refl)) as [v' ->].
    destruct (IH (pop (name arg) u)) as (results & -> & _).
    { intros w Hw. apply Hall. right. exact Hw. }
    exists (v' :: results). split; [|discriminate].
    destruct values; [reflexivity|]. rewrite pop_pop. reflexivity.
Qed.

(** What [convert] does to one value holds of every result. *)
Lemma convert_values_results (P : object -> Prop) (arg : Argument)
    (values : list object) (u : list string) (results : list object) :
  (forall v v', convert arg v = Returns v' -> P v') ->
  fst (convert_values arg values u) = Returns results ->
  Forall P results.
Proof.
  intros HP. revert u results.
  induction values as [|v values IH]; intros u results; simpl.
  - intros [= <-]. constructor.
  - destruct (convert arg v) as [v'|e] eqn:C; [|discriminate].
    specialize (IH (pop (name arg) u)).
    destruct (convert_values arg values (pop (name arg) u)) as [[rs|e] w];
      simpl in *; [|discriminate].
    intros [= <-]. constructor; [eapply HP, C|apply IH; reflexivity].
Qed.

Lemma parse_accepts (arg : Argument) (src : source) (u : list string) :
  required arg = false ->
  (forall v, List.In v (getlist (name arg) src) ->
             exists v', convert arg v = Returns v') ->
  exists value found,
    parse arg src u true
    = (Returns (Value value found),
       if has_key (name arg) src then pop (name arg) u else u).
Proof.
  intros Hreq Hall. unfold parse.
  destruct (has_key (name arg) src) eqn:K.
  - destruct (convert_values_accepts arg _ u Hall) as (results & -> & Hne).
    pose proof (getlist_present _ _ K) as Hvalues.
    destruct (getlist (name arg) src) as [|v values]; [congruence|].
    destruct results as [|first results]; [exfalso; apply Hne; congruence|].
    eauto.
  - simpl. rewrite Hreq. eauto.
Qed.

(** The value an argument parses to is its default or a result of
    [convert]. *)
Lemma parse_value (P : object -> Prop) (arg : Argument) (src : source)
    (u : list string) (bundle : bool) (value : object) (found : bool) :
  P (default arg) ->
  (forall v v', convert arg v = Returns v' -> P v') ->
  fst (parse arg src u bundle) = Returns (Value value found) -> P value.
Proof.
  intros Hdefault Hconv. unfold parse, handle_validation_error.
  destruct (convert_values arg _ u) as [[results|e] w] eqn:C; simpl.
  - assert (Forall P results) as HP.
    { eapply convert_values_results; [exact Hconv|]. rewrite C. reflexivity. }
    destruct results as [|first results].
    + destruct (required arg); [destruct bundle; discriminate|].
      intros [= <- _]. exact Hdefault.
    + intros [= <- _]. inversion HP. assumption.
  - destruct bundle; discriminate.
Qed.

Lemma parse_loop_accepts (src : source) (arguments : list Argument)
    (st : parse_state) :
  (forall a, List.In a arguments -> required a = false) ->
  (forall a v, List.In a arguments -> List.In v (getlist (name a) src) ->
               exists v', convert a v = Returns v') ->
  exists st',
    parse_loop true src arguments st = Returns st' /\
    errors st' = errors st /\
    forall k, List.In k (unparsed_arguments st') ->
              List.In k (unparsed_arguments st) /\
              ~ (List.In k (map name arguments) /\ has_key k src = true).
Proof.
  revert st. induction arguments as [|arg arguments IH]; intros st Hreq Hall; simpl.
  - exists st. repeat split; tauto.
  - destruct (parse_accepts arg src (unparsed_arguments st)
                (Hreq arg (or_introl eq_refl))
                (fun v => Hall arg v (or_introl eq_refl)))
      as (value & found & Hparse).
    unfold parse_arg. rewrite Hparse.
    destruct (IH {| namespace := <[name arg := value]> (namespace st);
                    errors := errors st;
                    unparsed_arguments :=
                      if has_key (name arg) src
                      then pop (name arg) (unparsed_arguments st)
                      else unparsed_arguments st |})
      as (st' & Hloop & Herr & Hun).
    { intros a Ha. apply Hreq. right. exact Ha. }
    { intros a v Ha. apply Hall. right. exact Ha. }
    exists st'. split; [exact Hloop|]. split; [exact Herr|].
    intros k Hk. destruct (Hun k Hk) as [Hin Hnot]. simpl in Hin.
    destruct (has_key (name arg) src) eqn:K.
    + apply pop_In in Hin as [Hin Hne]. split; [exact Hin|].
      intros [[Heq|Hmem] Hkey]; [congruence|tauto].
    + split; [exact Hin|].
      intros [[Heq|Hmem] Hkey]; [congruence|tauto].
Qed.

(** A strict parse returns when no argument is required, [convert]
    takes every value of every argument, and every key of the source is
    the name of an argument. *)
Lemma parse_args_accepts (parser : RequestParser) (src : source) :
  bundle_errors parser = true ->
  (forall a, List.In a (args parser) -> required a = false) ->
  (forall a v, List.In a (args parser) -> List.In v (getlist (name a) src) ->
               exists v', convert a v = Returns v') ->
  (forall k, has_key k src = true -> List.In k (map name (args parser))) ->
  exists ns, parse_args parser src true = Returns ns.
Proof.
  intros Hb Hreq Hall Hkeys. unfold parse_args. rewrite Hb.
  destruct (parse_loop_accepts src (args parser)
              {| namespace := ∅; errors := []; unparsed_arguments := keys src |}
              Hreq Hall) as (st' & -> & Herr & Hun).
  simpl in Herr. rewrite Herr.
  destruct (unparsed_arguments st') as [|k rest]; [eauto|].
  exfalso. destruct (Hun k (or_introl eq_refl)) as [Hin Hnot]. simpl in Hin.
  apply keys_In, has_key_In in Hin. apply Hnot. split; [apply Hkeys|]; exact Hin.
Qed.

End Accepts.

(** ** More on the post handlers *)

Section Outcomes.
Import Py reqparse filter.

Context (py : Builtins) {Result : Type} (TABLE_INDEX : string)
  (SearchTableResultSchema SearchDashboardResultSchema : AttrsSchema Result)
  (get_proxy_client : ProxyClient Result).

Local Abbreviation new :=
  (filter.new py TABLE_INDEX SearchTableResultSchema
     SearchDashboardResultSchema get_proxy_client).
Local Abbreviation dispatch :=
  (dispatch_request py TABLE_INDEX SearchTableResultSchema
     SearchDashboardResultSchema get_proxy_client).
Local Abbreviation schema_of :=
  (bound_schema SearchTableResultSchema SearchDashboardResultSchema).
Local Abbreviation call_of args :=
  {| Eff.search_request := get args "search_request";
     Eff.query_term := get args "query_term";
     Eff.page_index := get args "page_index";
     Eff.index := get args "index" |}.
Local Abbreviation recognized :=
  ["index"; "page_index"; "query_term"; "search_request"].

Lemma is_None_true (o : object) : is_None o = true <-> o = None_.
Proof. destruct o; simpl; split; congruence. Qed.

Lemma is_None_false (o : object) : is_None o = false <-> o <> None_.
Proof. destruct o; simpl; split; congruence. Qed.

(** The four arguments of the parser of a resource. *)
Lemma new_args (r : resource) (a : Argument) :
  List.In a (args (parser (new r))) ->
  a = {| name := "index"; required := false; default := Str TABLE_INDEX;
         type := Py.str py |} \/
  a = {| name := "page_index"; required := false; default := Int 0;
         type := Py.int py |} \/
  a = {| name := "query_term"; required := false; default := None_;
         type := Py.str py |} \/
  a = {| name := "search_request"; required := false; default := None_;
         type := Py.dict py |}.
Proof. destruct r; simpl; intuition. Qed.

Lemma new_not_required (r : resource) (a : Argument) :
  List.In a (args (parser (new r))) -> required a = false.
Proof.
  intros Hin. destruct (new_args r a Hin) as [-> | [-> | [-> | ->]]]; reflexivity.
Qed.

(** [str] takes every value, and gives a [str]. *)
Lemma str_converts (a : Argument) (v : object) :
  type a = Py.str py ->
  exists v', convert a v = Returns v' /\ (v' = None_ \/ exists s, v' = Str s).
Proof.
  intros Htype. unfold convert. rewrite Htype.
  destruct v as [| | | | | |e]; simpl; eauto.
Qed.

(** An argument of type [str] whose default is [None] or a [str] is
    [None] or a [str] in the namespace. *)
Lemma parsed_str (r : resource) (request : source)
    (args : gmap string object) (a : Argument) :
  parse_args (parser (new r)) request true = Returns args ->
  List.In a (reqparse.args (parser (new r))) ->
  type a = Py.str py ->
  (default a = None_ \/ exists s, default a = Str s) ->
  get args (name a) = None_ \/ exists s, get args (name a) = Str s.
Proof.
  intros Hparse Hin Htype Hdefault.
  apply parse_args_returns in Hparse as (st & L & <- & _).
  destruct (parse_loop_namespace _ _ _ _ _ (name a) L)
    as [[Hnot _]|(a' & Hin' & Hname & Hval)].
  - exfalso. apply Hnot, in_map, Hin.
  - assert (a' = a) as ->
      by (eapply name_injective; eauto using new_parser_NoDup).
    rewrite (proj1 (new_parser py TABLE_INDEX SearchTableResultSchema
                      SearchDashboardResultSchema get_proxy_client r)) in Hval.
    destruct (parse_accepts a request [] (new_not_required r a Hin))
      as (value & found & Hp).
    { intros v _. destruct (str_converts a v Htype) as (v' & Hv & _). eauto. }
    pose proof (f_equal fst Hp) as Hfst. simpl in Hfst.
    rewrite Hfst in Hval. unfold get. rewrite Hval.
    apply (parse_value (fun o => o = None_ \/ exists s, o = Str s)
             a request [] true value found Hdefault); [|exact Hfst].
    intros v v' Hv. destruct (str_converts a v Htype) as (w & Hw & Hshape).
    rewrite Hv in Hw. inversion Hw; subst. exact Hshape.
Qed.

(** X1: on every request a handler calls the proxy at most once, after
    the calls made before, and only with the values of a request that
    parsed, has a search_request and has no ':' in its query_term. *)
Theorem post_calls_at_most_once (r : resource) (request : source)
    (calls : list Eff.Call) :
  snd (dispatch r request calls) = calls \/
  exists args,
    parse_args (parser (new r)) request true = Returns args /\
    get args "search_request" <> None_ /\
    contains ":" (get args "query_term") = Returns false /\
    snd (dispatch r request calls) = (calls ++ [call_of args])%list.
Proof.
  destruct (parse_args (parser (new r)) request true) as [args|e] eqn:Hparse.
  - rewrite (dispatch_parsed _ _ _ _ _ r request args calls Hparse).
    destruct (is_None (get args "search_request")) eqn:N; [left; reflexivity|].
    apply is_None_false in N.
    destruct (contains ":" (get args "query_term")) as [[]|e] eqn:C;
      [left; reflexivity| |left; reflexivity].
    right. exists args. repeat split; trivial.
    destruct (get_proxy_client _ _); [|destruct (isinstance _ _)]; reflexivity.
  - left. rewrite (dispatch_refused _ _ _ _ _ r request e calls Hparse).
    reflexivity.
Qed.

(** X2: what a response tells: a 200 comes after one call that the proxy
    answered, with the answer dumped through the schema; a 400 comes
    without a call, for a search_request that is None or a ':' in the
    query_term; a 500 comes after one call in which the proxy raised a
    RuntimeError. *)
Theorem post_response_inv (r : resource) (request : source)
    (calls calls' : list Eff.Call) (body : object) (status : HTTPStatus.t) :
  dispatch r request calls = (Returns (body, status), calls') ->
  exists args,
    parse_args (parser (new r)) request true = Returns args /\
    match status with
    | HTTPStatus.OK =>
        exists results,
          get_proxy_client calls (call_of args) = Returns results /\
          body = dump_many (schema_of r) results /\
          calls' = (calls ++ [call_of args])%list
    | HTTPStatus.BAD_REQUEST =>
        calls' = calls /\
        ((get args "search_request" = None_ /\
          body = message "The search request payload is not available in the request") \/
         (get args "search_request" <> None_ /\
          contains ":" (get args "query_term") = Returns true /\
          body = message "The query term contains an invalid character"))
    | HTTPStatus.INTERNAL_SERVER_ERROR =>
        exists e,
          get_proxy_client calls (call_of args) = Raises e /\
          isinstance e "RuntimeError" = true /\
          body = message "Exception encountered while processing search request" /\
          calls' = (calls ++ [call_of args])%list
    end.
Proof.
  destruct (parse_args (parser (new r)) request true) as [args|e] eqn:Hparse.
  - rewrite (dispatch_parsed _ _ _ _ _ r request args calls Hparse).
    intros H. exists args. split; [reflexivity|].
    destruct (is_None (get args "search_request")) eqn:N.
    + apply is_None_true in N. inversion H; subst. auto.
    + apply is_None_false in N.
      destruct (contains ":" (get args "query_term")) as [[]|e] eqn:C.
      * inversion H; subst. auto.
      * destruct (get_proxy_client calls (call_of args)) as [results|e] eqn:P.
        -- inversion H; subst. eauto.
        -- destruct (isinstance e "RuntimeError") eqn:I; [|discriminate].
           inversion H; subst. eauto.
      * discriminate.
  - rewrite (dispatch_refused _ _ _ _ _ r request e calls Hparse). discriminate.
Qed.

(** On the source: what leaves a resource as an exception is never a
    RuntimeError, and is the 400 of the parser, raised before any call,
    or the TypeError of the membership test on a query_term that is
    None, raised before any call, or what the proxy raised in the one
    call. *)
Lemma dispatch_raise_inv (r : resource) (request : source)
    (calls calls' : list Eff.Call) (e : exception) :
  dispatch r request calls = (Raises e, calls') ->
  isinstance e "RuntimeError" = false /\
  ((parse_args (parser (new r)) request true = Raises e /\ calls' = calls) \/
   (exists args text,
      parse_args (parser (new r)) request true = Returns args /\
      get args "search_request" <> None_ /\
      get args "query_term" = None_ /\
      e = TypeError text /\ calls' = calls) \/
   (exists args,
      parse_args (parser (new r)) request true = Returns args /\
      get_proxy_client calls (call_of args) = Raises e /\
      calls' = (calls ++ [call_of args])%list)).
Proof.
  destruct (parse_args (parser (new r)) request true) as [args|e0] eqn:Hparse.
  - rewrite (dispatch_parsed _ _ _ _ _ r request args calls Hparse).
    destruct (is_None (get args "search_request")) eqn:N; [discriminate|].
    apply is_None_false in N.
    assert (get args "query_term" = None_ \/
            exists s, get args "query_term" = Str s) as Hq.
    { apply (parsed_str r request args
               {| name := "query_term"; required := false; default := None_;
                  type := Py.str py |} Hparse); [|reflexivity|auto].
      destruct r; simpl; auto. }
    destruct Hq as [Hq|[s Hq]]; rewrite Hq.
    + simpl. intros [= <- <-]. split; [reflexivity|].
      right. left. exists args. eexists. repeat split; trivial.
    + cbn [contains]. destruct (str_contains ":" s); [discriminate|].
      rewrite <- Hq.
      destruct (get_proxy_client calls (call_of args)) as [results|e1] eqn:P;
        [discriminate|].
      destruct (isinstance e1 "RuntimeError") eqn:I; [discriminate|].
      intros [= <- <-]. split; [exact I|].
      right. right. exists args. auto.
  - rewrite (dispatch_refused _ _ _ _ _ r request e0 calls Hparse).
    intros [= <- <-]. split; [|left; auto].
    destruct (parse_args_raises _ _ _ _ Hparse) as (d & m & ->). reflexivity.
Qed.

(** X3: for a request whose JSON body is an object, what leaves a
    resource as an exception is never a RuntimeError, and is the 400 of
    the parser, raised before any call, or the TypeError of the
    membership test on a query_term that is None, raised before any
    call, or what the proxy raised in the one call. *)
Theorem post_raise_inv (r : resource) (body : json_object)
    (calls calls' : list Eff.Call) (e : exception) :
  post_json py TABLE_INDEX SearchTableResultSchema
    SearchDashboardResultSchema get_proxy_client r body calls
  = (Raises e, calls') ->
  isinstance e "RuntimeError" = false /\
  ((parse_args (parser (new r)) (iter_multi_items body) true = Raises e /\
    calls' = calls) \/
   (exists args text,
      parse_args (parser (new r)) (iter_multi_items body) true = Returns args /\
      get args "search_request" <> None_ /\
      get args "query_term" = None_ /\
      e = TypeError text /\ calls' = calls) \/
   (exists args,
      parse_args (parser (new r)) (iter_multi_items body) true = Returns args /\
      get_proxy_client calls (call_of args) = Raises e /\
      calls' = (calls ++ [call_of args])%list)).
Proof.
  unfold post_json. intros Hrun.
  exact (dispatch_raise_inv r (iter_multi_items body) calls calls' e Hrun).
Qed.

(** X4: in a request that parses, query_term and index are each None or
    a str, whatever the request gave for them. *)
Theorem parsed_strings (r : resource) (request : source)
    (args : gmap string object) :
  parse_args (parser (new r)) request true = Returns args ->
  (get args "query_term" = None_ \/ exists q, get args "query_term" = Str q) /\
  (get args "index" = None_ \/ exists s, get args "index" = Str s).
Proof.
  intros Hparse. split.
  - apply (parsed_str r request args
             {| name := "query_term"; required := false; default := None_;
                type := Py.str py |} Hparse); [|reflexivity|auto].
    destruct r; simpl; auto.
  - apply (parsed_str r request args
             {| name := "index"; required := false; default := Str TABLE_INDEX;
                type := Py.str py |} Hparse); [|reflexivity|eauto].
    destruct r; simpl; auto.
Qed.

(** X5: [BaseFilterAPI.post] on its own, whatever the proxy, the schema
    and the parser of the resource, never responds 500. *)
Theorem base_post_never_500 (self : BaseFilterAPI Result) (request : source)
    (calls calls' : list Eff.Call) (body : object) (status : HTTPStatus.t) :
  BaseFilterAPI_post self request calls = (Returns (body, status), calls') ->
  status <> HTTPStatus.INTERNAL_SERVER_ERROR.
Proof.
  unfold BaseFilterAPI_post, Eff.bind, Eff.lift, Eff.try_except, Eff.ret,
    Eff.raise, fetch_search_results_with_filter.
  intros H.
  destruct (parse_args (parser self) request true) as [args|]; [|discriminate].
  destruct (is_None (get args "search_request")).
  { inversion H; subst. discriminate. }
  destruct (contains ":" (get args "query_term")) as [[]|]; [| |discriminate].
  { inversion H; subst. discriminate. }
  destruct (getitem args "index") as [idx|e].
  - destruct (proxy self calls _) as [results|e].
    + inversion H; subst. discriminate.
    + destruct (isinstance e "RuntimeError"); discriminate.
  - destruct (isinstance e "RuntimeError"); discriminate.
Qed.

(** X6: [BaseFilterAPI.post] on its own raises again what the proxy
    raised, a RuntimeError like any other error. *)
Theorem base_post_reraises (r : resource) (request : source)
    (args : gmap string object) (q : string) (e : exception)
    (calls : list Eff.Call) :
  parse_args (parser (new r)) request true = Returns args ->
  get args "search_request" <> None_ ->
  get args "query_term" = Str q ->
  (forall before after, q <> before +:+ ":" +:+ after) ->
  get_proxy_client calls (call_of args) = Raises e ->
  BaseFilterAPI_post (new r) request calls
  = (Raises e, (calls ++ [call_of args])%list).
Proof.
  intros Hparse Hsr Hq Hfree Hproxy.
  assert (getitem args "index" = Returns (get args "index")) as Hindex.
  { assert (is_Some (args !! "index")) as [v Hv].
    { apply (parse_args_keys _ _ _ _
               {| name := "index"; required := false;
                  default := Str TABLE_INDEX; type := Py.str py |} Hparse).
      destruct r; simpl; auto. }
    unfold getitem, get. rewrite Hv. reflexivity. }
  unfold BaseFilterAPI_post, Eff.bind, Eff.lift, Eff.try_except, Eff.ret,
    Eff.raise, fetch_search_results_with_filter.
  rewrite Hparse. apply is_None_false in Hsr. rewrite Hsr, Hq.
  cbn [contains]. rewrite (str_contains_free _ _ Hfree), Hindex.
  rewrite <- Hq.
  replace (proxy (new r)) with get_proxy_client by (destruct r; reflexivity).
  rewrite Hproxy. destruct (isinstance e "RuntimeError"); reflexivity.
Qed.

(** [convert] takes every value of every argument when the page_index
    values are null, integers or booleans and the search_request values
    are null or objects. *)
Lemma new_converts (r : resource) (request : source) :
  (forall v, List.In v (getlist "page_index" request) ->
             v = None_ \/ (exists n, v = Int n) \/ (exists b, v = Bool b)) ->
  (forall v, List.In v (getlist "search_request" request) ->
             v = None_ \/ exists d, v = Dict d) ->
  forall a v, List.In a (args (parser (new r))) ->
              List.In v (getlist (name a) request) ->
              exists v', convert a v = Returns v'.
Proof.
  intros Hpage Hsr a v Hin Hv.
  destruct (new_args r a Hin) as [-> | [-> | [-> | ->]]]; simpl in Hv.
  - match goal with
    | |- exists v', convert ?a v = _ =>
        destruct (str_converts a v eq_refl) as (v' & Hc & _)
    end. eauto.
  - destruct (Hpage v Hv) as [-> | [[n ->] | [b ->]]]; simpl; eauto.
  - match goal with
    | |- exists v', convert ?a v = _ =>
        destruct (str_converts a v eq_refl) as (v' & Hc & _)
    end. eauto.
  - destruct (Hsr v Hv) as [-> | [d ->]]; simpl; eauto.
Qed.

(** X8: a request is never refused by the parser when its fields are
    all among index, page_index, query_term and search_request, every
    page_index in it is null, an integer or a boolean, and every
    search_request in it is null or an object. *)
Theorem post_accepts (r : resource) (request : source) :
  (forall k, has_key k request = true -> List.In k recognized) ->
  (forall v, List.In v (getlist "page_index" request) ->
             v = None_ \/ (exists n, v = Int n) \/ (exists b, v = Bool b)) ->
  (forall v, List.In v (getlist "search_request" request) ->
             v = None_ \/ exists d, v = Dict d) ->
  exists args, parse_args (parser (new r)) request true = Returns args.
Proof.
  intros Hkeys Hpage Hsr.
  destruct (new_parser py TABLE_INDEX SearchTableResultSchema
              SearchDashboardResultSchema get_proxy_client r) as [Hb Hnames].
  apply parse_args_accepts.
  - exact Hb.
  - apply new_not_required.
  - apply new_converts; assumption.
  - rewrite Hnames. exact Hkeys.
Qed.

(** X9: a request whose fields are all recognized, with one
    search_request that is an object, one query_term that is a string
    without ':' and page_index values that are null, integers or
    booleans, goes through: the proxy is called once with that
    search_request and that query_term, and its answer comes back as a
    200. *)
Theorem post_well_formed (r : resource) (request : source)
    (d : list (object * object)) (q : string) (calls : list Eff.Call) :
  (forall k, has_key k request = true -> List.In k recognized) ->
  getlist "search_request" request = [Dict d] ->
  getlist "query_term" request = [Str q] ->
  (forall before after, q <> before +:+ ":" +:+ after) ->
  (forall v, List.In v (getlist "page_index" request) ->
             v = None_ \/ (exists n, v = Int n) \/ (exists b, v = Bool b)) ->
  exists page idx,
    let c := {| Eff.search_request := Dict d; Eff.query_term := Str q;
                Eff.page_index := page; Eff.index := idx |} in
    snd (dispatch r request calls) = (calls ++ [c])%list /\
    forall results,
      get_proxy_client calls c = Returns results ->
      dispatch r request calls
      = (Returns (List_ (map (schema_of r) results), HTTPStatus.OK),
         (calls ++ [c])%list).
Proof.
  intros Hkeys Hsr Hq Hfree Hpage.
  destruct (new_parser py TABLE_INDEX SearchTableResultSchema
              SearchDashboardResultSchema get_proxy_client r) as [Hb Hnames].
  destruct (parse_args_accepts (parser (new r)) request Hb
              (new_not_required r)) as [args Hparse].
  { apply new_converts; [exact Hpage|].
    rewrite Hsr. intros v [<-|[]]. eauto. }
  { rewrite Hnames. exact Hkeys. }
  pose proof (new_parser_NoDup py TABLE_INDEX SearchTableResultSchema
                SearchDashboardResultSchema get_proxy_client r) as ND.
  assert (get args "search_request" = Dict d) as Gsr.
  { assert (args !! "search_request" = Some (Dict d)) as Hl.
    { apply (parse_args_single (parser (new r)) request true args
               {| name := "search_request"; required := false;
                  default := None_; type := Py.dict py |}
               (Dict d) (Dict d) ND);
        [|exact Hsr|reflexivity|exact Hparse].
      destruct r; simpl; auto. }
    unfold get. rewrite Hl. reflexivity. }
  assert (get args "query_term" = Str q) as Gq.
  { assert (args !! "query_term" = Some (Str q)) as Hl.
    { apply (parse_args_single (parser (new r)) request true args
               {| name := "query_term"; required := false;
                  default := None_; type := Py.str py |}
               (Str q) (Str q) ND);
        [|exact Hq|reflexivity|exact Hparse].
      destruct r; simpl; auto. }
    unfold get. rewrite Hl. reflexivity. }
  exists (get args "page_index"), (get args "index"). cbv zeta.
  rewrite (dispatch_parsed _ _ _ _ _ r request args calls Hparse).
  rewrite Gsr, Gq. cbn [is_None contains].
  rewrite (str_contains_free _ _ Hfree). split.
  - destruct (get_proxy_client _ _); [|destruct (isinstance _ _)]; reflexivity.
  - intros results ->. reflexivity.
Qed.

(** X10: a page_index given as null is not replaced by the default: it
    parses to None, and None is the page_index of the call to the
    proxy. *)
Theorem post_null_page_index (r : resource) (request : source)
    (args : gmap string object) (q : string) (calls : list Eff.Call) :
  parse_args (parser (new r)) request true = Returns args ->
  getlist "page_index" request = [None_] ->
  get args "search_request" <> None_ ->
  get args "query_term" = Str q ->
  (forall before after, q <> before +:+ ":" +:+ after) ->
  get args "page_index" = None_ /\
  snd (dispatch r request calls)
  = (calls ++ [ {| Eff.search_request := get args "search_request";
                   Eff.query_term := Str q;
                   Eff.page_index := None_;
                   Eff.index := get args "index" |} ])%list.
Proof.
  intros Hparse Hone Hsr Hq Hfree.
  assert (get args "page_index" = None_) as Hpage.
  { assert (args !! "page_index" = Some None_) as Hl.
    { apply (parse_args_single (parser (new r)) request true args
               {| name := "page_index"; required := false; default := Int 0;
                  type := Py.int py |} None_ None_
               (new_parser_NoDup py TABLE_INDEX SearchTableResultSchema
                  SearchDashboardResultSchema get_proxy_client r));
        [|exact Hone|reflexivity|exact Hparse].
      destruct r; simpl; auto. }
    unfold get. rewrite Hl. reflexivity. }
  split; [exact Hpage|].
  rewrite (dispatch_parsed _ _ _ _ _ r request args calls Hparse).
  rewrite <- Hpage, <- Hq. apply is_None_false in Hsr. rewrite Hsr, Hq.
  cbn [contains]. rewrite (str_contains_free _ _ Hfree). rewrite <- Hq.
  destruct (get_proxy_client _ _); [|destruct (isinstance _ _)]; reflexivity.
Qed.

(** X11: a search_request given as null is answered like one that is
    left out: the 400 with "The search request payload is not available
    in the request", and no call to the proxy. *)
Theorem post_null_search_request (r : resource) (request : source)
    (args : gmap string object) (calls : list Eff.Call) :
  parse_args (parser (new r)) request true = Returns args ->
  getlist "search_request" request = [None_] ->
  dispatch r request calls
  = (Returns (message "The search request payload is not available in the request",
              HTTPStatus.BAD_REQUEST),
     calls).
Proof.
  intros Hparse Hone.
  assert (args !! "search_request" = Some None_) as Hl.
  { apply (parse_args_single (parser (new r)) request true args
             {| name := "search_request"; required := false; default := None_;
                type := Py.dict py |} None_ None_
             (new_parser_NoDup py TABLE_INDEX SearchTableResultSchema
                SearchDashboardResultSchema get_proxy_client r));
      [|exact Hone|reflexivity|exact Hparse].
    destruct r; simpl; auto. }
  rewrite (dispatch_parsed _ _ _ _ _ r request args calls Hparse).
  unfold get at 1. rewrite Hl. reflexivity.
Qed.

(** X12: the 400 with which the parser refuses a request leaves the
    resource as the parser raised it: it is not a RuntimeError, so it is
    not turned into the 500, and the proxy is not called. *)
Theorem post_parser_refusal (r : resource) (request : source)
    (e : exception) (calls : list Eff.Call) :
  parse_args (parser (new r)) request true = Raises e ->
  dispatch r request calls = (Raises e, calls) /\
  isinstance e "RuntimeError" = false /\
  exists description errors, e = HTTPException 400 description errors.
Proof.
  intros Hparse. split.
  - apply dispatch_refused, Hparse.
  - destruct (parse_args_raises _ _ _ _ Hparse) as (d & m & ->).
    split; [reflexivity|eauto].
Qed.

End Outcomes.

(** ** More runs on concrete requests *)

Section MoreRuns.
Import Py reqparse filter.

Local Abbreviation call sr q page idx :=
  {| Eff.search_request := sr; Eff.query_term := q;
     Eff.page_index := page; Eff.index := idx |}.
Local Abbreviation call_of args :=
  {| Eff.search_request := get args "search_request";
     Eff.query_term := get args "query_term";
     Eff.page_index := get args "page_index";
     Eff.index := get args "index" |}.
Local Abbreviation table_parser :=
  (parser (filter.new Sample.py "table_search_index" Sample.table_schema
             Sample.dashboard_schema (Sample.answers ["t"]) Table)).

(** X2 at the 200 of {"search_request": {}, "query_term": "foo"}. *)
Lemma post_response_inv_witness :
  let request := [("search_request", Dict []); ("query_term", Str "foo")] in
  exists args,
    parse_args table_parser request true = Returns args /\
    exists results,
      Sample.answers ["t"] [] (call_of args) = Returns results /\
      List_ [Dict [(Str "name", Str "t")]]
      = dump_many Sample.table_schema results /\
      [call (Dict []) (Str "foo") (Int 0) (Str "table_search_index")]
      = ([] ++ [call_of args])%list.
Proof.
  apply (post_response_inv Sample.py "table_search_index" Sample.table_schema
           Sample.dashboard_schema (Sample.answers ["t"]) Table
           [("search_request", Dict []); ("query_term", Str "foo")] []
           [call (Dict []) (Str "foo") (Int 0) (Str "table_search_index")]
           (List_ [Dict [(Str "name", Str "t")]]) HTTPStatus.OK).
  vm_compute. reflexivity.
Defined.

(** X3 at the body {"search_request": {}, "index": []}, where the
    membership test raises. *)
Lemma post_raise_inv_witness :
  let body := [("search_request", Dict []); ("index", List_ [])] in
  let e := TypeError "argument of type 'NoneType' is not iterable" in
  isinstance e "RuntimeError" = false /\
  ((parse_args table_parser (iter_multi_items body) true = Raises e /\
    ([] : list Eff.Call) = []) \/
   (exists args text,
      parse_args table_parser (iter_multi_items body) true = Returns args /\
      get args "search_request" <> None_ /\
      get args "query_term" = None_ /\
      e = TypeError text /\ ([] : list Eff.Call) = []) \/
   (exists args,
      parse_args table_parser (iter_multi_items body) true = Returns args /\
      Sample.answers ["t"] [] (call_of args) = Raises e /\
      [] = ([] ++ [call_of args])%list)).
Proof.
  apply (post_raise_inv Sample.py "table_search_index" Sample.table_schema
           Sample.dashboard_schema (Sample.answers ["t"]) Table
           [("search_request", Dict []); ("index", List_ [])] [] []
           (TypeError "argument of type 'NoneType' is not iterable")).
  vm_compute. reflexivity.
Defined.

(** X4 at {"search_request": {}, "query_term": 5, "index": null}: the
    number is a str in the namespace, and the null is None. *)
Lemma parsed_strings_witness :
  let args := Sample.namespace_of None_ (Int 0) (Str "<int>") (Dict []) in
  (get args "query_term" = None_ \/ exists q, get args "query_term" = Str q) /\
  (get args "index" = None_ \/ exists s, get args "index" = Str s).
Proof.
  apply (parsed_strings Sample.py "table_search_index" Sample.table_schema
           Sample.dashboard_schema (Sample.answers ["t"]) Table
           [("search_request", Dict []); ("query_term", Int 5);
            ("index", None_)]).
  vm_compute. reflexivity.
Defined.

(** X5 at {"search_request": {}, "query_term": "foo"} on the table
    resource. *)
Lemma base_post_never_500_witness :
  let self := filter.new Sample.py "table_search_index" Sample.table_schema
                Sample.dashboard_schema (Sample.answers ["t"]) Table in
  let request := [("search_request", Dict []); ("query_term", Str "foo")] in
  fst (BaseFilterAPI_post self request [])
  = Returns (List_ [Dict [(Str "name", Str "t")]], HTTPStatus.OK) /\
  HTTPStatus.OK <> HTTPStatus.INTERNAL_SERVER_ERROR.
Proof.
  intros self request. split; [vm_compute; reflexivity|].
  apply (base_post_never_500 self request []
           [call (Dict []) (Str "foo") (Int 0) (Str "table_search_index")]
           (List_ [Dict [(Str "name", Str "t")]])).
  vm_compute. reflexivity.
Defined.

(** X6 with a proxy that raises a RuntimeError: the base handler raises
    it again. *)
Lemma base_post_reraises_witness :
  BaseFilterAPI_post
    (filter.new Sample.py "table_search_index" Sample.table_schema
       Sample.dashboard_schema (Sample.fails (RuntimeError "backend is down"))
       Table)
    [("search_request", Dict []); ("query_term", Str "foo")] []
  = (Raises (RuntimeError "backend is down"),
     [call (Dict []) (Str "foo") (Int 0) (Str "table_search_index")]).
Proof.
  apply (base_post_reraises Sample.py "table_search_index" Sample.table_schema
           Sample.dashboard_schema (Sample.fails (RuntimeError "backend is down"))
           Table _
           (Sample.namespace_of (Str "table_search_index") (Int 0) (Str "foo")
              (Dict []))
           "foo" (RuntimeError "backend is down") []).
  - vm_compute. reflexivity.
  - vm_compute. discriminate.
  - vm_compute. reflexivity.
  - apply str_contains_none. reflexivity.
  - reflexivity.
Defined.

(** X7 on the dashboard resource, with a proxy that raises a
    ValueError. *)
Lemma post_other_error_witness :
  Sample.run (Sample.fails (ValueError "bad filter")) Dashboard
    [("search_request", Dict []); ("query_term", Str "foo");
     ("page_index", Int 1)]
  = (Raises (ValueError "bad filter"),
     [call (Dict []) (Str "foo") (Int 1) (Str "table_search_index")]).
Proof.
  apply (post_other_error Sample.py "table_search_index" Sample.table_schema
           Sample.dashboard_schema (Sample.fails (ValueError "bad filter"))
           Dashboard _
           (Sample.namespace_of (Str "table_search_index") (Int 1) (Str "foo")
              (Dict []))
           "foo" (ValueError "bad filter") []).
  - vm_compute. reflexivity.
  - vm_compute. discriminate.
  - vm_compute. reflexivity.
  - apply str_contains_none. reflexivity.
  - reflexivity.
  - reflexivity.
Defined.

(** X8 at {"search_request": {}, "page_index": true, "index": 7}. *)
Lemma post_accepts_witness :
  exists args,
    parse_args table_parser
      [("search_request", Dict []); ("page_index", Bool true);
       ("index", Int 7)] true
    = Returns args.
Proof.
  apply (post_accepts Sample.py "table_search_index" Sample.table_schema
           Sample.dashboard_schema (Sample.answers ["t"]) Table).
  - intros k Hk. apply has_key_In in Hk. simpl in Hk. simpl. intuition.
  - simpl. intros v [<-|[]]. eauto.
  - simpl. intros v [<-|[]]. eauto.
Defined.

(** X9 at {"search_request": {"resource": "table"}, "query_term": "foo",
    "page_index": 2}. *)
Lemma post_well_formed_witness :
  let request := [("search_request", Dict [(Str "resource", Str "table")]);
                  ("query_term", Str "foo"); ("page_index", Int 2)] in
  exists page idx,
    let c := call (Dict [(Str "resource", Str "table")]) (Str "foo") page idx in
    snd (Sample.run (Sample.answers ["t"]) Table request) = ([] ++ [c])%list /\
    forall results,
      Sample.answers ["t"] [] c = Returns results ->
      Sample.run (Sample.answers ["t"]) Table request
      = (Returns (List_ (map Sample.table_schema results), HTTPStatus.OK),
         ([] ++ [c])%list).
Proof.
  apply (post_well_formed Sample.py "table_search_index" Sample.table_schema
           Sample.dashboard_schema (Sample.answers ["t"]) Table _
           [(Str "resource", Str "table")] "foo" []).
  - intros k Hk. apply has_key_In in Hk. simpl in Hk. simpl. intuition.
  - reflexivity.
  - reflexivity.
  - apply str_contains_none. reflexivity.
  - simpl. intros v [<-|[]]. eauto.
Defined.

(** X10 at {"search_request": {}, "query_term": "foo", "page_index":
    null}. *)
Lemma post_null_page_index_witness :
  let request := [("search_request", Dict []); ("query_term", Str "foo");
                  ("page_index", None_)] in
  let args := Sample.namespace_of (Str "table_search_index") None_
                (Str "foo") (Dict []) in
  get args "page_index" = None_ /\
  snd (Sample.run (Sample.answers ["t"]) Table request)
  = [call (Dict []) (Str "foo") None_ (Str "table_search_index")].
Proof.
  intros request args.
  apply (post_null_page_index Sample.py "table_search_index"
           Sample.table_schema Sample.dashboard_schema (Sample.answers ["t"])
           Table request args "foo" []).
  - vm_compute. reflexivity.
  - reflexivity.
  - vm_compute. discriminate.
  - vm_compute. reflexivity.
  - apply str_contains_none. reflexivity.
Defined.

(** X11 at {"search_request": null, "query_term": "a:b"}. *)
Lemma post_null_search_request_witness :
  Sample.run (Sample.answers ["t"]) Dashboard
    [("search_request", None_); ("query_term", Str "a:b")]
  = (Returns (message "The search request payload is not available in the request",
              HTTPStatus.BAD_REQUEST), []).
Proof.
  apply (post_null_search_request Sample.py "table_search_index"
           Sample.table_schema Sample.dashboard_schema (Sample.answers ["t"])
           Dashboard _
           (Sample.namespace_of (Str "table_search_index") (Int 0) (Str "a:b")
              None_)
           []).
  - vm_compute. reflexivity.
  - reflexivity.
Defined.

(** X12 at {"page_index": "abc", "search_request": {}}, which the parser
    refuses for its page_index. *)
Lemma post_parser_refusal_witness :
  let request := [("page_index", Str "abc"); ("search_request", Dict [])] in
  let e := HTTPException 400 bad_request_description
             [("page_index", "invalid literal for int() with base 10: 'abc'")] in
  Sample.run (Sample.answers ["t"]) Table request = (Raises e, []) /\
  isinstance e "RuntimeError" = false /\
  exists description errors, e = HTTPException 400 description errors.
Proof.
  apply (post_parser_refusal Sample.py "table_search_index" Sample.table_schema
           Sample.dashboard_schema (Sample.answers ["t"]) Table).
  vm_compute. reflexivity.
Defined.

End MoreRuns.
